(** * Gerenciamento Trader: the ledger scripts, embedded and verified

    The repository holds browser scripts for a manual trading journal:
    - the main script (state with [bancaInicial] and [operacoes],
      [carregarLocal], [calcularKPIs], [adicionarOperacao] and the submit
      handler of the operation form), modelled in [Module Principal];
    - the running-balance variant [script/sozinho.js] (a single number
      [bancaAtual] and a submit handler that applies the payout), modelled
      in [Module Sozinho].
    A third fragment checks the payout field once when the page loads and
    paints a fixed balance of 100 with a recommended stake; it keeps no
    ledger and handles no submit, and is not modelled.

    Modelling choices, fixed once for the whole development:
    - a JavaScript Number is [number]: NaN, the two infinities, or an exact
      rational.  Rounding to binary64 and the sign of zero are abstracted;
      NaN and the infinities behave as in IEEE 754.  What is stated about
      sums and products is therefore either an equation between the
      expressions the code evaluates, in its order of evaluation, or an
      order fact that rounding preserves.
    - a JavaScript value read from JSON or from a form is [value]; where
      the loader converts one to a number or a date, the TypeError of a
      value that has no primitive form is modelled ([convertivel]).
    - a Date is its time value: [Some ms] or [None] for an Invalid Date.
    - the global object [state], the wall clock and the id generator are
      threaded explicitly through a state monad over [World].
    - the functions of the host (JSON.parse, Date.parse, the string to
      number conversion, the local calendar ...) are the fields of the
      class [Host]. *)

From Stdlib Require Import ZArith QArith Qabs String Ascii DecimalString List Bool Arith Lia Lqa.
Import ListNotations.

Set Warnings "-register-all".
Local Close Scope Q_scope.
Local Open Scope string_scope.
Local Open Scope list_scope.

(** ** JavaScript numbers *)

Module Num.

Inductive number : Type :=
| NaN
| NegInf
| Fin (q : Q)
| PosInf.

Definition zero : number := Fin 0.
Definition of_Z (z : Z) : number := Fin (inject_Z z).
Definition of_nat (n : nat) : number := of_Z (Z.of_nat n).

(** Sign of a finite rational: [Lt] negative, [Eq] zero, [Gt] positive. *)
Definition sgn (q : Q) : comparison := Qcompare q 0%Q.

(** Unary minus. *)
Definition neg (a : number) : number :=
  match a with
  | NaN => NaN
  | NegInf => PosInf
  | Fin q => Fin (- q)%Q
  | PosInf => NegInf
  end.

(** [a + b]. *)
Definition add (a b : number) : number :=
  match a, b with
  | NaN, _ | _, NaN => NaN
  | PosInf, NegInf | NegInf, PosInf => NaN
  | PosInf, _ | _, PosInf => PosInf
  | NegInf, _ | _, NegInf => NegInf
  | Fin x, Fin y => Fin (x + y)%Q
  end.

Definition inf_of (c : comparison) : number :=
  match c with
  | Lt => NegInf
  | Eq => NaN
  | Gt => PosInf
  end.

(** [a * b]. *)
Definition mul (a b : number) : number :=
  match a, b with
  | NaN, _ | _, NaN => NaN
  | Fin x, Fin y => Fin (x * y)%Q
  | PosInf, PosInf | NegInf, NegInf => PosInf
  | PosInf, NegInf | NegInf, PosInf => NegInf
  | PosInf, Fin y | Fin y, PosInf => inf_of (sgn y)
  | NegInf, Fin y | Fin y, NegInf => inf_of (CompOpp (sgn y))
  end.

(** [a / b]; a finite non-zero number over zero is an infinity. *)
Definition div (a b : number) : number :=
  match a, b with
  | NaN, _ | _, NaN => NaN
  | Fin x, Fin y =>
      match sgn y with
      | Eq => inf_of (sgn x)
      | _ => Fin (x / y)%Q
      end
  | Fin _, (PosInf | NegInf) => Fin 0
  | (PosInf | NegInf), (PosInf | NegInf) => NaN
  | PosInf, Fin y =>
      match sgn y with Lt => NegInf | _ => PosInf end
  | NegInf, Fin y =>
      match sgn y with Lt => PosInf | _ => NegInf end
  end.

(** [a < b]: false as soon as one side is NaN. *)
Definition ltb (a b : number) : bool :=
  match a, b with
  | NaN, _ | _, NaN => false
  | _, NegInf => false
  | NegInf, _ => true
  | PosInf, _ => false
  | Fin _, PosInf => true
  | Fin x, Fin y => negb (Qle_bool y x)
  end.

(** [a <= b]. *)
Definition leb (a b : number) : bool :=
  match a, b with
  | NaN, _ | _, NaN => false
  | NegInf, _ => true
  | _, PosInf => true
  | _, NegInf => false
  | PosInf, _ => false
  | Fin x, Fin y => Qle_bool x y
  end.

(** [a > b] and [a >= b] are the mirrored tests. *)
Definition gtb (a b : number) : bool := ltb b a.
Definition geb (a b : number) : bool := leb b a.

(** [Number.isNaN] and [Number.isFinite]. *)
Definition isNaN (a : number) : bool :=
  match a with NaN => true | _ => false end.

Definition isFinite (a : number) : bool :=
  match a with Fin _ => true | _ => false end.

(** ToBoolean on a number: NaN and zero are falsy. *)
Definition truthy (a : number) : bool :=
  match a with
  | NaN => false
  | Fin q => negb (Qeq_bool q 0%Q)
  | _ => true
  end.

(** Equality of numbers as values: rationals are compared by [Qeq]. *)
Definition eqv (a b : number) : Prop :=
  match a, b with
  | NaN, NaN | NegInf, NegInf | PosInf, PosInf => True
  | Fin x, Fin y => (x == y)%Q
  | _, _ => False
  end.

(** Truncation toward zero of a rational (ToIntegerOrInfinity). *)
Definition trunc (q : Q) : Z := Z.quot (Qnum q) (Zpos (Qden q)).

End Num.

Export Num.

Declare Scope js_scope.
Delimit Scope js_scope with js.
Infix "+" := add : js_scope.
Infix "*" := mul : js_scope.
Infix "/" := div : js_scope.
Notation "- x" := (neg x) : js_scope.
Infix "<?" := ltb : js_scope.
Infix "<=?" := leb : js_scope.
Infix ">?" := gtb : js_scope.
Infix ">=?" := geb : js_scope.
Infix "=~" := eqv (at level 70, no associativity).

(** ** JavaScript values and dates *)

Inductive value : Type :=
| VUndefined
| VNull
| VBool (b : bool)
| VNum (n : number)
| VStr (s : string)
| VArr (elems : list value)
| VObj (fields : list (string * value)).

(** A Date is its time value in milliseconds; [None] is an Invalid Date. *)
Definition Date : Type := option Z.

(** Relational operators on dates go through the time value, so every
    comparison with an Invalid Date is false. *)
Definition date_ltb (a b : Date) : bool :=
  match a, b with
  | Some x, Some y => (x <? y)%Z
  | _, _ => false
  end.

Definition date_leb (a b : Date) : bool :=
  match a, b with
  | Some x, Some y => (x <=? y)%Z
  | _, _ => false
  end.

Definition date_geb (a b : Date) : bool := date_leb b a.

(** Own property [k] of an object given as its list of fields. *)
Fixpoint lookup (k : string) (fields : list (string * value)) : option value :=
  match fields with
  | [] => None
  | (k', v) :: rest => if String.eqb k k' then Some v else lookup k rest
  end.

(** [v.k]: [None] when the access throws a TypeError (v is null or
    undefined).  The keys the scripts read (bancaInicial, operacoes,
    createdAt, amount, result) are not inherited from any prototype, so a
    primitive or an array yields undefined. *)
Definition getProp (v : value) (k : string) : option value :=
  match v with
  | VUndefined | VNull => None
  | VObj fields =>
      match lookup k fields with
      | Some x => Some x
      | None => Some VUndefined
      end
  | _ => Some VUndefined
  end.

(** ToBoolean. *)
Definition truthyV (v : value) : bool :=
  match v with
  | VUndefined | VNull => false
  | VBool b => b
  | VNum n => truthy n
  | VStr s => negb (String.eqb s "")
  | VArr _ | VObj _ => true
  end.

(** [v === 'lit'] for a string literal. *)
Definition strictEqStr (v : value) (lit : string) : bool :=
  match v with
  | VStr s => String.eqb s lit
  | _ => false
  end.

Definition isArray (v : value) : bool :=
  match v with VArr _ => true | _ => false end.

(** TimeClip: finite numbers within 8.64e15 ms of the epoch, truncated. *)
Definition timeClip (n : number) : Date :=
  match n with
  | Fin q =>
      if Qle_bool (Qabs q) 8640000000000000 then Some (trunc q) else None
  | _ => None
  end.

(** The decimal name of an array index. *)
Definition indexName (i : nat) : string :=
  DecimalString.NilEmpty.string_of_uint (Nat.to_uint i).

Fixpoint indexedFrom (i : nat) (l : list value) : list (string * value) :=
  match l with
  | [] => []
  | v :: rest => (indexName i, v) :: indexedFrom (S i) rest
  end.

Fixpoint chars (s : string) : list value :=
  match s with
  | EmptyString => []
  | String c rest => VStr (String c EmptyString) :: chars rest
  end.

(** The own enumerable properties of a value, as an object spread copies
    them: the fields of an object, the indexed elements of an array or of
    a string, nothing for the other primitives. *)
Definition ownProps (v : value) : list (string * value) :=
  match v with
  | VObj fields => fields
  | VArr l => indexedFrom 0 l
  | VStr s => indexedFrom 0 (chars s)
  | _ => []
  end.

(** ** The host: what the browser provides *)

Class Host : Type := {
  (** the [n]-th reading of the wall clock ([new Date()], in ms) *)
  clock : nat -> Z;
  (** first instant of the local calendar month that contains an instant *)
  startOfMonth : Z -> Z;
  (** the [n]-th identifier produced for a new operation
      ([crypto.randomUUID()], or the text of [Date.now()] without it) *)
  gerarId : nat -> string;
  (** [JSON.parse]; [None] when it throws a SyntaxError *)
  JSON_parse : string -> option value;
  (** [Date.parse] as a time value *)
  Date_parse : string -> Date;
  (** the conversion of a string to a number, as [Number(s)] does it *)
  StringToNumber : string -> number;
  (** the string an array or an object converts to *)
  ObjectToString : value -> string;
  (** [String.prototype.trim] *)
  trim : string -> string
}.

(** Whether the conversion of a value to a primitive returns.  For an
    object it tries [valueOf] and [toString]: the inherited [valueOf]
    gives the object back, and an own property named toString, which in a
    value read from JSON is never a function, hides the inherited method,
    so the conversion throws a TypeError.  An array converts through
    [join], that is through each of its elements. *)
Fixpoint convertivel (v : value) : bool :=
  match v with
  | VArr l => forallb convertivel l
  | VObj fields =>
      match lookup "toString" fields with
      | Some _ => false
      | None => true
      end
  | _ => true
  end.

Section Conversions.
Context {host : Host}.

(** The number [Number(v)] returns.  On a value that is not
    [convertivel] the call throws instead: code that can meet such a value
    goes through [paraNumero] below. *)
Definition Number (v : value) : number :=
  match v with
  | VUndefined => NaN
  | VNull => Fin 0
  | VBool b => if b then Fin 1 else Fin 0
  | VNum n => n
  | VStr s => StringToNumber s
  | VArr _ | VObj _ => StringToNumber (ObjectToString v)
  end.

(** The date [new Date(v)] returns, with one argument.  On a value that
    is not [convertivel] the call throws instead, see [paraData]. *)
Definition DateOf (v : value) : Date :=
  match v with
  | VStr s => Date_parse s
  | VArr _ | VObj _ => Date_parse (ObjectToString v)
  | _ => timeClip (Number v)
  end.

End Conversions.

(** ** The main script *)

Module Principal.

(** An operation as the script stores it: the three fields that every
    path rebuilds with a fixed type, and the other own properties of the
    object (id, strategy, description, whatever a stored record had). *)
Record Operacao : Type := {
  createdAt : Date;
  amount : number;
  result : string;
  outros : list (string * value)
}.

(** The global object [state]. *)
Record State : Type := {
  bancaInicial : number;
  operacoes : list Operacao
}.

(** The literal the script starts from. *)
Definition state0 : State :=
  {| bancaInicial := Fin 5000; operacoes := [] |}.

(** Everything the script can read or change: the global [state], how
    often the wall clock has been read, how many ids were produced. *)
Record World : Type := {
  state : State;
  leituras : nat;
  idsGerados : nat
}.

Definition world0 : World :=
  {| state := state0; leituras := 0; idsGerados := 0 |}.

(** *** State monad over [World] *)

Definition M (A : Type) : Type := World -> A * World.

Definition ret {A} (a : A) : M A := fun w => (a, w).

Definition bind {A B} (c : M A) (k : A -> M B) : M B :=
  fun w => let (a, w') := c w in k a w'.

Declare Scope m_scope.
Delimit Scope m_scope with m.
Notation "x <- c ;; k" := (bind c (fun x => k))
  (at level 61, c at next level, right associativity) : m_scope.
Local Open Scope m_scope.

Definition getState : M State := fun w => (state w, w).

(** The world once the clock has been read one more time. *)
Definition tique (w : World) : World :=
  {| state := state w; leituras := S (leituras w); idsGerados := idsGerados w |}.

Definition setState (s : State) : M unit :=
  fun w => (tt, {| state := s; leituras := leituras w; idsGerados := idsGerados w |}).

(** [filter] with an effectful test, left to right as [Array.prototype.filter]. *)
Fixpoint filterM {A} (p : A -> M bool) (l : list A) : M (list A) :=
  match l with
  | [] => ret []
  | x :: rest =>
      keep <- p x ;;
      tl <- filterM p rest ;;
      ret (if keep then x :: tl else tl)
  end.

(** *** Exceptions on top of the state monad, for code that may throw *)

Inductive outcome (A : Type) : Type :=
| Done (a : A)
| Thrown.
Arguments Done {A} a.
Arguments Thrown {A}.

Definition E (A : Type) : Type := M (outcome A).

Definition retE {A} (a : A) : E A := ret (Done a).

Definition throw {A} : E A := ret Thrown.

Definition bindE {A B} (c : E A) (k : A -> E B) : E B :=
  r <- c ;;
  match r with
  | Done a => k a
  | Thrown => ret Thrown
  end.

Definition lift {A} (c : M A) : E A := a <- c ;; ret (Done a).

(** A property access or a parse that may throw. *)
Definition orThrow {A} (o : option A) : E A :=
  match o with
  | Some a => retE a
  | None => throw
  end.

(** [try { body } catch { }]: whatever the body did before it threw stays. *)
Definition tryCatch (body : E unit) : M unit := _ <- body ;; ret tt.

Notation "x <-- c ;; k" := (bindE c (fun x => k))
  (at level 61, c at next level, right associativity) : m_scope.

(** [Array.prototype.map] with a callback that may throw. *)
Fixpoint mapE {A B} (f : A -> E B) (l : list A) : E (list B) :=
  match l with
  | [] => retE []
  | x :: rest =>
      y <-- f x ;;
      ys <-- mapE f rest ;;
      retE (y :: ys)
  end.

(** The snapshot [calcularKPIs] returns. *)
Record KPIs : Type := {
  bancaAtual : number;
  baselineMes : number;
  variacaoValor : number;
  variacaoPct : number;
  winsMes : nat;
  lossesMes : nat;
  taxaAcerto : number;
  lucroMes : number;
  mediaMes : number;
  streakAtual : nat;
  streakTipo : option string;
  streakMax : nat;
  ultima : option Operacao
}.

(** The reducer of the three profit sums:
    [(acc, o) => acc + (o.result === 'WIN' ? o.amount : -o.amount)]. *)
Definition somaLucro (acc : number) (o : Operacao) : number :=
  (acc + (if String.eqb (result o) "WIN" then amount o else - amount o))%js.

(** [o.result || null] and [o.result === streakTipo]. *)
Definition resultOrNull (o : Operacao) : option string :=
  if String.eqb (result o) "" then None else Some (result o).

Definition sameTipo (o : Operacao) (tipo : option string) : bool :=
  match tipo with
  | Some t => String.eqb (result o) t
  | None => false
  end.

(** The loop of the current streak,
    [for (let i = ops.length - 1; i >= 0; i--)], with [n = i + 1] and the
    pair (streakAtual, streakTipo) as loop state.  Returning [acc] in the
    second branch is the [break]. *)
Fixpoint streakLoop (ops : list Operacao) (n : nat) (acc : nat * option string)
  : nat * option string :=
  match n with
  | O => acc
  | S i =>
      if Nat.eqb i (length ops - 1) then
        let tipo := match nth_error ops i with
                    | Some o => resultOrNull o
                    | None => None
                    end in
        streakLoop ops i (match tipo with Some _ => 1 | None => 0 end, tipo)
      else
        match nth_error ops i with
        | Some o =>
            if sameTipo o (snd acc)
            then streakLoop ops i (S (fst acc), snd acc)
            else acc
        | None => acc
        end
  end.

(** The body of the loop of the longest WIN streak, on the pair
    (streakMax, atual). *)
Definition passoStreakMax (acc : nat * nat) (o : Operacao) : nat * nat :=
  if String.eqb (result o) "WIN"
  then (Nat.max (fst acc) (S (snd acc)), S (snd acc))
  else (fst acc, 0).

(** [r === 'WIN' ? 'WIN' : 'LOSS'], as both the loader and
    [adicionarOperacao] write it. *)
Definition normalizar (r : value) : string :=
  if strictEqStr r "WIN" then "WIN" else "LOSS".

(** What an object literal of [adicionarOperacao] receives.  The submit
    handler, its only caller, passes a number and three strings, on which
    no conversion throws. *)
Record NovaOperacao : Type := {
  nAmount : value;
  nResult : value;
  nStrategy : value;
  nDescription : value
}.

(** The fields of the operation form, and the text of the element
    [formMsg] ([None] when the page has no such element). *)
Record Formulario : Type := {
  inAmount : string;
  inResult : string;
  inStrategy : string;
  inDescription : string
}.

Definition setMsg (msg : option string) (texto : string) : option string :=
  match msg with
  | Some _ => Some texto
  | None => None
  end.

(** What a submit leaves on the page: the text of [formMsg] and whether
    the form was reset and the modal closed. *)
Record Pagina : Type := {
  formMsg : option string;
  fechado : bool
}.

Section WithHost.
Context {host : Host}.

(** One more reading of the wall clock. *)
Definition lerRelogio : M Z := fun w => (clock (leituras w), tique w).

(** [new Date()]. *)
Definition newDate : M Date := t <- lerRelogio ;; ret (Some t).

(** The id of a new operation. *)
Definition novoId : M string :=
  fun w => (gerarId (idsGerados w),
            {| state := state w; leituras := leituras w; idsGerados := S (idsGerados w) |}).

Definition inicioDoMesAtual : M Date :=
  now <- lerRelogio ;;
  ret (Some (startOfMonth now)).

(** The test of the month filter:
    [o.createdAt >= startMonth && o.createdAt <= new Date()]; the clock is
    read only when the first comparison holds. *)
Definition noMes (startMonth : Date) (o : Operacao) : M bool :=
  if date_geb (createdAt o) startMonth
  then (agora <- newDate ;; ret (date_leb (createdAt o) agora))
  else ret false.

(** The arithmetic of [calcularKPIs], statement by statement in source
    order, given [startMonth] and the result [opsMes] of the month filter
    (the only two values that come from the clock). *)
Definition montarKPIs (st : State) (startMonth : Date) (opsMes : list Operacao)
  : KPIs :=
  let ops := operacoes st in
  let profitAll := fold_left somaLucro ops (Fin 0) in
  let bancaAtual := (bancaInicial st + profitAll)%js in
  let profitAntesMes :=
    fold_left somaLucro
      (filter (fun o => date_ltb (createdAt o) startMonth) ops) (Fin 0) in
  let baselineMes := (bancaInicial st + profitAntesMes)%js in
  let winsMes := length (filter (fun o => String.eqb (result o) "WIN") opsMes) in
  let lossesMes := length (filter (fun o => String.eqb (result o) "LOSS") opsMes) in
  let lucroMes := fold_left somaLucro opsMes (Fin 0) in
  let taxaAcerto :=
    if (0 <? winsMes + lossesMes)%nat
    then (of_nat winsMes / of_nat (winsMes + lossesMes) * Fin 100)%js
    else Fin 0 in
  let variacaoValor := lucroMes in
  let variacaoPct :=
    if (baselineMes >? Fin 0)%js
    then (variacaoValor / baselineMes * Fin 100)%js
    else Fin 0 in
  let streak := streakLoop ops (length ops) (0%nat, None) in
  let streakMax := fst (fold_left passoStreakMax ops (0%nat, 0%nat)) in
  let mediaMes :=
    if (0 <? length opsMes)%nat
    then (fold_left (fun acc o => acc + amount o)%js opsMes (Fin 0)
          / of_nat (length opsMes))%js
    else Fin 0 in
  let ultima := nth_error ops (length ops - 1) in
  {| bancaAtual := bancaAtual;
     baselineMes := baselineMes;
     variacaoValor := variacaoValor;
     variacaoPct := variacaoPct;
     winsMes := winsMes;
     lossesMes := lossesMes;
     taxaAcerto := taxaAcerto;
     lucroMes := lucroMes;
     mediaMes := mediaMes;
     streakAtual := fst streak;
     streakTipo := snd streak;
     streakMax := streakMax;
     ultima := ultima |}.

(** [calcularKPIs]: it reads the global [state], reads the clock for the
    start of the month, reads it again inside the month filter, and
    returns the snapshot. *)
Definition calcularKPIs : M KPIs :=
  st <- getState ;;
  startMonth <- inicioDoMesAtual ;;
  opsMes <- filterM (noMes startMonth) (operacoes st) ;;
  ret (montarKPIs st startMonth opsMes).

(** [render] recomputes the KPIs and paints them; the DOM is not part of
    [World], the clock readings of [calcularKPIs] are. *)
Definition render : M unit := _ <- calcularKPIs ;; ret tt.

(** [salvarLocal] reads [state] and writes the browser storage, which is
    not part of [World]; [toISOString] throws a RangeError on an Invalid
    Date. *)
Definition salvarLocal : E unit :=
  st <-- lift getState ;;
  if forallb (fun o => match createdAt o with Some _ => true | None => false end)
       (operacoes st)
  then retE tt
  else throw.

Definition orEmpty (v : value) : value := if truthyV v then v else VStr "".

Definition adicionarOperacao (a : NovaOperacao) : E unit :=
  id <-- lift novoId ;;
  agora <-- lift newDate ;;
  let op := {| createdAt := agora;
               amount := Number (nAmount a);
               result := normalizar (nResult a);
               outros := [("id", VStr id);
                          ("strategy", orEmpty (nStrategy a));
                          ("description", orEmpty (nDescription a))] |} in
  st <-- lift getState ;;
  _ <-- lift (setState {| bancaInicial := bancaInicial st;
                          operacoes := operacoes st ++ [op] |}) ;;
  _ <-- salvarLocal ;;
  lift render.

(** The properties [{...o}] keeps once the literal has set its own
    [createdAt], [amount] and [result]. *)
Definition spread (o : value) : list (string * value) :=
  filter (fun kv => negb (String.eqb (fst kv) "createdAt"
                          || String.eqb (fst kv) "amount"
                          || String.eqb (fst kv) "result"))
         (ownProps o).

(** [Number(v)] and [new Date(v)] on a value of any shape: the TypeError
    of the conversion to a primitive, or the result. *)
Definition paraNumero (v : value) : E number :=
  if convertivel v then retE (Number v) else throw.

Definition paraData (v : value) : E Date :=
  if convertivel v then retE (DateOf v) else throw.

(** The callback of [parsed.operacoes.map] in [carregarLocal]. *)
Definition reconstruir (o : value) : E Operacao :=
  let resto := spread o in
  c <-- orThrow (getProp o "createdAt") ;;
  criado <-- (if truthyV c then paraData c else lift newDate) ;;
  a <-- orThrow (getProp o "amount") ;;
  n <-- paraNumero a ;;
  r <-- orThrow (getProp o "result") ;;
  retE {| createdAt := criado;
          amount := n;
          result := normalizar r;
          outros := resto |}.

(** [carregarLocal], given what [localStorage.getItem] returned ([None]
    for null). *)
Definition carregarLocal (raw : option string) : M unit :=
  match raw with
  | None => ret tt
  | Some s =>
      if String.eqb s "" then ret tt
      else
        tryCatch (
          parsed <-- orThrow (JSON_parse s) ;;
          b <-- orThrow (getProp parsed "bancaInicial") ;;
          n <-- paraNumero b ;;
          st <-- lift getState ;;
          _ <-- lift (setState
                  {| bancaInicial := (if truthy n then n else Fin 0);
                     operacoes := operacoes st |}) ;;
          o <-- orThrow (getProp parsed "operacoes") ;;
          ops <-- (match o with
                   | VArr l => mapE reconstruir l
                   | _ => retE []
                   end) ;;
          st' <-- lift getState ;;
          lift (setState {| bancaInicial := bancaInicial st'; operacoes := ops |}))
  end.

(** The submit handler of the operation form.  It returns what is left on
    the page; it throws when [adicionarOperacao] does. *)
Definition onSubmit (f : Formulario) (msg : option string) : E Pagina :=
  let msg := setMsg msg "" in
  let amount := StringToNumber (inAmount f) in
  let result := inResult f in
  let strategy := trim (inStrategy f) in
  let description := trim (inDescription f) in
  if negb (truthy amount) || (amount <=? Fin 0)%js then
    retE {| formMsg := setMsg msg "Informe um valor válido."; fechado := false |}
  else if negb (String.eqb result "WIN") && negb (String.eqb result "LOSS") then
    retE {| formMsg := setMsg msg "Selecione WIN ou LOSS."; fechado := false |}
  else
    _ <-- adicionarOperacao {| nAmount := VNum amount;
                               nResult := VStr result;
                               nStrategy := VStr strategy;
                               nDescription := VStr description |} ;;
    retE {| formMsg := msg; fechado := true |}.

(** The page load: [carregarLocal(); render();]. *)
Definition aoCarregar (raw : option string) : M unit :=
  _ <- carregarLocal raw ;;
  render.

End WithHost.

End Principal.

(** ** The running-balance variant, script/sozinho.js *)

Module Sozinho.

Record Formulario : Type := {
  inAmount : string;
  inPayout : string;
  inResult : string;
  inOperacional : string;
  inDescription : string
}.

(** After a submit: the balance, the text of [formMsg], and whether the
    balance was stored and the form reset. *)
Record Resultado : Type := {
  bancaAtual : number;
  formMsg : option string;
  salvo : bool
}.

Section WithHost.
Context {host : Host}.

(** The initialiser of [bancaAtual], given what [localStorage.getItem]
    returned ([None] for null, which [Number] turns into 0). *)
Definition bancaAtualInicial (raw : option string) : number :=
  let n := match raw with
           | Some s => StringToNumber s
           | None => Number VNull
           end in
  if isFinite n then n else Fin 100.

Definition onSubmit (f : Formulario) (banca : number) (msg : option string)
  : Resultado :=
  let msg := Principal.setMsg msg "" in
  let amount := StringToNumber (inAmount f) in
  let payoutPercent := StringToNumber (inPayout f) in
  let result := inResult f in
  let operacional := inOperacional f in
  if negb (truthy amount) || (amount <=? Fin 0)%js then
    {| bancaAtual := banca;
       formMsg := Principal.setMsg msg "Informe um valor válido (> 0).";
       salvo := false |}
  else if isNaN payoutPercent || (payoutPercent <? Fin 0)%js
          || (payoutPercent >? Fin 100)%js then
    {| bancaAtual := banca;
       formMsg := Principal.setMsg msg "Payout deve ser entre 0 e 100.";
       salvo := false |}
  else if negb (String.eqb result "WIN") && negb (String.eqb result "LOSS") then
    {| bancaAtual := banca;
       formMsg := Principal.setMsg msg "Selecione WIN ou LOSS.";
       salvo := false |}
  else if String.eqb operacional "" then
    {| bancaAtual := banca;
       formMsg := Principal.setMsg msg "Selecione o operacional.";
       salvo := false |}
  else
    let payout := (payoutPercent / Fin 100)%js in
    let delta := if String.eqb result "WIN" then (amount * payout)%js
                 else (- amount)%js in
    {| bancaAtual := (banca + delta)%js; formMsg := msg; salvo := true |}.

End WithHost.

End Sozinho.

(** ** Notions the statements below are phrased with *)

Module Ledger.
Import Principal.

(** Signed profit of one operation as [calcularKPIs] counts it. *)
Definition lucro (o : Operacao) : number :=
  if String.eqb (result o) "WIN" then amount o else (- amount o)%js.

(** Sum of a list of numbers, from 0 and left to right. *)
Definition soma (l : list number) : number := fold_left add l (Fin 0).

(** The payout percentage stored with an operation, if any. *)
Definition payoutPercent (o : Operacao) : option number :=
  match lookup "payoutPercent" (outros o) with
  | Some (VNum p) => Some p
  | _ => None
  end.

(** Signed profit in the words of the specification:
    [amount * ((payoutPercent ?? 100) / 100)] on a WIN, [-amount] on a
    LOSS. *)
Definition profit_spec (o : Operacao) : number :=
  if String.eqb (result o) "WIN"
  then (amount o
        * (match payoutPercent o with Some p => p | None => Fin 100 end / Fin 100))%js
  else (- amount o)%js.

(** The balance in the words of the specification. *)
Definition currentBalance_spec (st : State) : number :=
  (bancaInicial st + soma (map profit_spec (operacoes st)))%js.

(** The two results an operation may carry. *)
Definition resultadoValido (o : Operacao) : Prop :=
  result o = "WIN" \/ result o = "LOSS".

Definition estadoValido (st : State) : Prop :=
  Forall resultadoValido (operacoes st).

(** Length of the longest prefix of [l] whose results all equal [t]. *)
Fixpoint runLength (t : string) (l : list Operacao) : nat :=
  match l with
  | [] => 0
  | o :: rest => if String.eqb (result o) t then S (runLength t rest) else 0
  end.

(** Number of consecutive trailing operations that share the result of
    the last one, scanning from the most recent backward. *)
Definition trailingRun (ops : list Operacao) : nat :=
  match rev ops with
  | [] => 0
  | o :: before => S (runLength (result o) before)
  end.

(** The result of the last operation, if there is one. *)
Definition lastResult (ops : list Operacao) : option string :=
  match rev ops with
  | [] => None
  | o :: _ => Some (result o)
  end.

(** Longest run of consecutive WIN results anywhere in the sequence. *)
Fixpoint longestWinRun (l : list Operacao) : nat :=
  match l with
  | [] => 0
  | _ :: rest => Nat.max (runLength "WIN" l) (longestWinRun rest)
  end.

Section WithHost.
Context {host : Host}.

(** The operations of the current month as [calcularKPIs] selects them. *)
Definition opsDoMes : M (list Operacao) :=
  (st <- getState ;;
   startMonth <- inicioDoMesAtual ;;
   filterM (noMes startMonth) (operacoes st))%m.

(** The world in which the loader maps the stored operations: the initial
    balance is already replaced. *)
Definition comBanca (b : value) (w : World) : World :=
  {| state := {| bancaInicial := if truthy (Number b) then Number b else Fin 0;
                 operacoes := operacoes (state w) |};
     leituras := leituras w;
     idsGerados := idsGerados w |}.

(** Nothing usable is stored: no entry, an empty text, a text that is not
    JSON, or the JSON text null. *)
Definition semSnapshot (raw : option string) : Prop :=
  raw = None
  \/ raw = Some ""
  \/ exists s, raw = Some s
               /\ (JSON_parse s = None \/ JSON_parse s = Some VNull).

(** The operation [adicionarOperacao] appends in the world [w]. *)
Definition novaOperacao (a : NovaOperacao) (w : World) : Operacao :=
  {| createdAt := Some (clock (leituras w));
     amount := Number (nAmount a);
     result := normalizar (nResult a);
     outros := [("id", VStr (gerarId (idsGerados w)));
                ("strategy", orEmpty (nStrategy a));
                ("description", orEmpty (nDescription a))] |}.

(** One step of the page: a load, an append, a repaint or a submit. *)
Inductive passo : World -> World -> Prop :=
| passo_carregar raw w : passo w (snd (carregarLocal raw w))
| passo_adicionar a w : passo w (snd (adicionarOperacao a w))
| passo_render w : passo w (snd (render w))
| passo_submit f msg w : passo w (snd (onSubmit f msg w)).

(** The worlds the page can be in. *)
Inductive alcancavel : World -> Prop :=
| alc_inicio : alcancavel world0
| alc_passo w w' : alcancavel w -> passo w w' -> alcancavel w'.

End WithHost.

End Ledger.

(** ** A host for the worked examples

    It answers as a browser in the UTC time zone does on the inputs the
    examples use: JSON texts listed in a table, strings of decimal digits
    with an optional minus sign, strings without surrounding blanks. *)

Module Exemplo.
Import Principal.

(** First instant of the UTC month of [t] (civil calendar from the day
    count). *)
Definition startOfMonthUTC (t : Z) : Z :=
  let dias := (t / 86400000)%Z in
  let z := (dias + 719468)%Z in
  let era := (z / 146097)%Z in
  let doe := (z - era * 146097)%Z in
  let yoe := ((doe - doe / 1460 + doe / 36524 - doe / 146096) / 365)%Z in
  let doy := (doe - (365 * yoe + yoe / 4 - yoe / 100))%Z in
  let mp := ((5 * doy + 2) / 153)%Z in
  let d := (doy - (153 * mp + 2) / 5 + 1)%Z in
  ((dias - (d - 1)) * 86400000)%Z.

Fixpoint digitos (s : string) (acc : Z) : option Z :=
  match s with
  | EmptyString => Some acc
  | String c rest =>
      let n := Z.of_nat (nat_of_ascii c) in
      if ((48 <=? n) && (n <=? 57))%Z
      then digitos rest (10 * acc + (n - 48))%Z
      else None
  end.

Definition numeroDecimal (s : string) : number :=
  match s with
  | String "-" (String c rest) =>
      match digitos (String c rest) 0 with
      | Some z => of_Z (- z)
      | None => NaN
      end
  | _ =>
      match digitos s 0 with
      | Some z => of_Z z
      | None => NaN
      end
  end.

Fixpoint naTabela (tab : list (string * value)) (s : string) : option value :=
  match tab with
  | [] => None
  | (k, v) :: rest => if String.eqb s k then Some v else naTabela rest s
  end.

Definition hostDe (relogio : nat -> Z) (json : list (string * value)) : Host :=
  {| clock := relogio;
     startOfMonth := startOfMonthUTC;
     gerarId := fun n => String.append "op-" (indexName n);
     JSON_parse := naTabela json;
     Date_parse := fun _ => None;
     StringToNumber := numeroDecimal;
     ObjectToString := fun _ => "[object Object]";
     trim := fun s => s |}.

(** 2023-11-14T22:13:20Z, and the first instant of that November. *)
Definition t0 : Z := 1700000000000.
Definition novembro : Z := 1698796800000.

(** A clock that stands still at [t0]. *)
Definition parado : nat -> Z := fun _ => t0.

(** A clock that reads [t0] first and one minute later from then on. *)
Definition andando : nat -> Z :=
  fun n => match n with O => t0 | S _ => (t0 + 60000)%Z end.

(** The scenario of the payout: a balance of 5000 and one winning
    operation of 100 stored with a payout of 80 percent, created now. *)
Definition opPayout : Operacao :=
  {| createdAt := Some t0;
     amount := Fin 100;
     result := "WIN";
     outros := [("payoutPercent", VNum (Fin 80))] |}.

Definition mundoPayout : World :=
  {| state := {| bancaInicial := Fin 5000; operacoes := [opPayout] |};
     leituras := 0;
     idsGerados := 0 |}.

(** The same operation typed into the form of script/sozinho.js. *)
Definition formPayout : Sozinho.Formulario :=
  {| Sozinho.inAmount := "100";
     Sozinho.inPayout := "80";
     Sozinho.inResult := "WIN";
     Sozinho.inOperacional := "M5";
     Sozinho.inDescription := "" |}.

(** A clock that agrees with [parado] on its first readings only. *)
Definition paradoAte (n : nat) : nat -> Z :=
  fun k => if (k <=? n)%nat then t0 else 0%Z.

(** One winning operation dated one second after [t0]. *)
Definition mundoAdiante : World :=
  {| state := {| bancaInicial := Fin 5000;
                 operacoes := [ {| createdAt := Some (t0 + 1000)%Z;
                                   amount := Fin 100;
                                   result := "WIN";
                                   outros := [] |} ] |};
     leituras := 0;
     idsGerados := 0 |}.

(** A ledger that starts from nothing: the month opens on a baseline of
    zero and holds one win of 100. *)
Definition mundoSemBase : World :=
  {| state := {| bancaInicial := Fin 0; operacoes := [opPayout] |};
     leituras := 0;
     idsGerados := 0 |}.

(** The scenario of the two losses. *)
Definition perda50 : Operacao :=
  {| createdAt := Some t0; amount := Fin 50; result := "LOSS"; outros := [] |}.

Definition mundoDuasPerdas : World :=
  {| state := {| bancaInicial := Fin 5000; operacoes := [perda50; perda50] |};
     leituras := 0;
     idsGerados := 0 |}.

(** Two wins, a loss, and a win again. *)
Definition ganho (v : Q) : Operacao :=
  {| createdAt := Some t0; amount := Fin v; result := "WIN"; outros := [] |}.

Definition mundoSequencia : World :=
  {| state := {| bancaInicial := Fin 5000;
                 operacoes := [ganho 10; ganho 20; perda50; ganho 30] |};
     leituras := 0;
     idsGerados := 0 |}.

(** Stored texts for the loader.  [aspas] is the double quote. *)
Definition aspas : string := String (ascii_of_nat 34) EmptyString.

Definition entreAspas (s : string) : string :=
  String.append aspas (String.append s aspas).

(** The text [{"bancaInicial":true}]. *)
Definition textoTrue : string :=
  String.append "{" (String.append (entreAspas "bancaInicial") ":true}").

(** The text [{"bancaInicial":7,"operacoes":[null]}]. *)
Definition textoComNull : string :=
  String.append "{"
    (String.append (entreAspas "bancaInicial")
       (String.append ":7,"
          (String.append (entreAspas "operacoes") ":[null]}"))).

(** What [JSON.parse] makes of the texts of the examples. *)
Definition guardados : list (string * value) :=
  [ ("{}", VObj []);
    ("null", VNull);
    (textoTrue, VObj [("bancaInicial", VBool true)]);
    (textoComNull, VObj [("bancaInicial", VNum (Fin 7));
                         ("operacoes", VArr [VNull])]) ].

Definition navegador : Host := hostDe parado guardados.

(** Forms that fail the checks: an amount of zero for the main script, a
    payout of 150 for script/sozinho.js. *)
Definition formZero : Principal.Formulario :=
  {| Principal.inAmount := "0";
     Principal.inResult := "WIN";
     Principal.inStrategy := "";
     Principal.inDescription := "" |}.

Definition formPayout150 : Sozinho.Formulario :=
  {| Sozinho.inAmount := "100";
     Sozinho.inPayout := "150";
     Sozinho.inResult := "WIN";
     Sozinho.inOperacional := "M5";
     Sozinho.inDescription := "" |}.

End Exemplo.

(** ** What [salvarLocal] writes *)

Module Gravacao.
Import Principal.

(** What [JSON.parse(JSON.stringify(v))] gives back for a value held in an
    array or under a key: a number that is not finite comes back as null,
    a key whose value is undefined is dropped, an undefined array element
    comes back as null. *)
Fixpoint viaJSON (v : value) : value :=
  match v with
  | VUndefined => VNull
  | VNum n => if isFinite n then VNum n else VNull
  | VArr l => VArr (map viaJSON l)
  | VObj fields =>
      VObj ((fix campos (fs : list (string * value)) : list (string * value) :=
               match fs with
               | [] => []
               | (k, x) :: rest =>
                   match x with
                   | VUndefined => campos rest
                   | _ => (k, viaJSON x) :: campos rest
                   end
               end) fields)
  | _ => v
  end.

(** The fields of an object after the same trip. *)
Definition camposJSON (fields : list (string * value)) : list (string * value) :=
  match viaJSON (VObj fields) with
  | VObj r => r
  | _ => []
  end.

(** A stored record the loader can read properties of: anything but null
    (and undefined, which JSON never yields). *)
Definition temCampos (o : value) : bool :=
  match o with
  | VNull | VUndefined => false
  | _ => true
  end.

(** [o.k] for a record that has properties. *)
Definition campo (o : value) (k : string) : value :=
  match getProp o k with
  | Some v => v
  | None => VUndefined
  end.

(** A stored record the loader can rebuild: it has properties, its
    [createdAt], when truthy, has a primitive form for [new Date], and its
    [amount] has one for [Number]. *)
Definition legivel (o : value) : bool :=
  temCampos o
  && (if truthyV (campo o "createdAt")
      then convertivel (campo o "createdAt") else true)
  && convertivel (campo o "amount").

Section Serial.
(** [Date.prototype.toISOString] on the time value of a valid date. *)
Variable iso : Z -> string.

(** The object [salvarLocal] builds for one operation,
    [{...o, createdAt: o.createdAt.toISOString()}]; [None] when
    [toISOString] throws its RangeError on an Invalid Date.  Properties
    are read by key, so where the three fixed keys sit among the others is
    immaterial; the others keep their order. *)
Definition serialOp (o : Operacao) : option value :=
  match createdAt o with
  | Some t =>
      Some (VObj (("createdAt", VStr (iso t))
                    :: ("amount", VNum (amount o))
                    :: ("result", VStr (result o))
                    :: outros o))
  | None => None
  end.

(** [state.operacoes.map(...)] with the callback above. *)
Fixpoint serialOps (l : list Operacao) : option (list value) :=
  match l with
  | [] => Some []
  | o :: rest =>
      match serialOp o with
      | Some v =>
          match serialOps rest with
          | Some vs => Some (v :: vs)
          | None => None
          end
      | None => None
      end
  end.

(** The object [serial] that [salvarLocal] hands to [JSON.stringify]. *)
Definition serial (st : State) : option value :=
  match serialOps (operacoes st) with
  | Some l => Some (VObj [("bancaInicial", VNum (bancaInicial st));
                           ("operacoes", VArr l)])
  | None => None
  end.

End Serial.

(** A number after one trip through the storage. *)
Definition guardado (n : number) : number := if isFinite n then n else Fin 0.

Definition opGuardada (o : Operacao) : Operacao :=
  {| createdAt := createdAt o;
     amount := guardado (amount o);
     result := result o;
     outros := outros o |}.

(** A key the literals of the loader and of the save set themselves. *)
Definition chaveFixa (k : string) : bool :=
  String.eqb k "createdAt" || String.eqb k "amount" || String.eqb k "result".

Section Limpa.
Context {host : Host}.
Variable iso : Z -> string.

(** An operation the storage gives back as it was, up to its amount: a
    valid date whose ISO text is read back by [Date.parse], a result WIN
    or LOSS, and other properties that JSON keeps and that do not reuse
    the three fixed keys. *)
Definition opLimpa (o : Operacao) : Prop :=
  (exists t, createdAt o = Some t
             /\ iso t <> "" /\ Date_parse (iso t) = Some t)
  /\ (result o = "WIN" \/ result o = "LOSS")
  /\ Forall (fun kv => chaveFixa (fst kv) = false
                       /\ snd kv <> VUndefined
                       /\ viaJSON (snd kv) = snd kv) (outros o).

(** How one stored record and the operation rebuilt from it relate. *)
Definition reconstruidaDe (o : value) (op : Operacao) : Prop :=
  result op = normalizar (campo o "result")
  /\ amount op = Number (campo o "amount")
  /\ outros op = spread o
  /\ (truthyV (campo o "createdAt") = true ->
      createdAt op = DateOf (campo o "createdAt"))
  /\ (truthyV (campo o "createdAt") = false ->
      exists n, createdAt op = Some (clock n)).

End Limpa.

End Gravacao.

(** ** The checks of script/sozinho.js, as one test *)

Module Validacao.

Section WithHost.
Context {host : Host}.

(** The amount is greater than zero, the payout lies within 0 and 100,
    the result is WIN or LOSS and an operational is selected. *)
Definition aceito (f : Sozinho.Formulario) : bool :=
  (StringToNumber (Sozinho.inAmount f) >? Fin 0)%js
  && ((Fin 0 <=? StringToNumber (Sozinho.inPayout f))%js
      && (StringToNumber (Sozinho.inPayout f) <=? Fin 100)%js)
  && (String.eqb (Sozinho.inResult f) "WIN" || String.eqb (Sozinho.inResult f) "LOSS")
  && negb (String.eqb (Sozinho.inOperacional f) "").

End WithHost.

End Validacao.

(** ** More worked examples *)

Module Exemplo2.
Import Principal.

(** The ISO text of [Exemplo.t0], and a host that reads it back. *)
Definition isoT0 : string := "2023-11-14T22:13:20.000Z".

(** [toISOString] on the one date the examples store. *)
Definition iso (t : Z) : string :=
  if (t =? Exemplo.t0)%Z then isoT0 else "".

(** The object [salvarLocal] stores for [Exemplo.mundoSequencia], as
    [JSON.parse] returns it. *)
Definition objetoSequencia : value :=
  let op (v : Q) (r : string) :=
    VObj [("createdAt", VStr isoT0); ("amount", VNum (Fin v)); ("result", VStr r)] in
  VObj [("bancaInicial", VNum (Fin 5000));
        ("operacoes", VArr [op 10%Q "WIN"; op 20%Q "WIN"; op 50%Q "LOSS"; op 30%Q "WIN"])].

Definition navegador : Host :=
  {| clock := Exemplo.parado;
     startOfMonth := Exemplo.startOfMonthUTC;
     gerarId := fun n => String.append "op-" (indexName n);
     JSON_parse := Exemplo.naTabela [("sequencia", objetoSequencia)];
     Date_parse := fun s => if String.eqb s isoT0 then Some Exemplo.t0 else None;
     StringToNumber := Exemplo.numeroDecimal;
     ObjectToString := fun _ => "[object Object]";
     trim := fun s => s |}.

(** Stored texts whose [bancaInicial], or whose one record's [amount], is
    an object with an own property named toString:
    [{"bancaInicial":{"toString":1}}] and
    [{"bancaInicial":7,"operacoes":[{"amount":{"toString":1}}]}]. *)
Definition semPrimitivo : value := VObj [("toString", VNum (Fin 1))].

Definition textoBancaObjeto : string :=
  String.append "{"
    (String.append (Exemplo.entreAspas "bancaInicial")
       (String.append ":{"
          (String.append (Exemplo.entreAspas "toString") ":1}}"))).

Definition textoValorObjeto : string :=
  String.append "{"
    (String.append (Exemplo.entreAspas "bancaInicial")
       (String.append ":7,"
          (String.append (Exemplo.entreAspas "operacoes")
             (String.append ":[{"
                (String.append (Exemplo.entreAspas "amount")
                   (String.append ":{"
                      (String.append (Exemplo.entreAspas "toString")
                                     ":1}}]}"))))))).

Definition guardadosObjeto : list (string * value) :=
  [ (textoBancaObjeto, VObj [("bancaInicial", semPrimitivo)]);
    (textoValorObjeto,
     VObj [("bancaInicial", VNum (Fin 7));
           ("operacoes", VArr [VObj [("amount", semPrimitivo)]])]) ].

Definition navegadorObjeto : Host := Exemplo.hostDe Exemplo.parado guardadosObjeto.

(** A host whose conversion also reads the text Infinity, and a loss of
    that amount typed into the form of script/sozinho.js. *)
Definition numeroOuInfinito (s : string) : number :=
  if String.eqb s "Infinity" then PosInf else Exemplo.numeroDecimal s.

Definition navegadorInfinito : Host :=
  {| clock := Exemplo.parado;
     startOfMonth := Exemplo.startOfMonthUTC;
     gerarId := fun n => String.append "op-" (indexName n);
     JSON_parse := Exemplo.naTabela [];
     Date_parse := fun _ => None;
     StringToNumber := numeroOuInfinito;
     ObjectToString := fun _ => "[object Object]";
     trim := fun s => s |}.

Definition formPerdaInfinita : Sozinho.Formulario :=
  {| Sozinho.inAmount := "Infinity";
     Sozinho.inPayout := "80";
     Sozinho.inResult := "LOSS";
     Sozinho.inOperacional := "M5";
     Sozinho.inDescription := "" |}.

(** A valid form of the main script: a win of 25. *)
Definition formGanho25 : Principal.Formulario :=
  {| Principal.inAmount := "25";
     Principal.inResult := "WIN";
     Principal.inStrategy := "rompimento";
     Principal.inDescription := "" |}.

(** A log with one operation whose date is invalid. *)
Definition mundoDataInvalida : World :=
  {| state := {| bancaInicial := Fin 5000;
                 operacoes := [ {| createdAt := None; amount := Fin 10;
                                   result := "WIN"; outros := [] |} ] |};
     leituras := 0;
     idsGerados := 0 |}.

(** A log with one operation that has no amount. *)
Definition mundoSemValor : World :=
  {| state := {| bancaInicial := Fin 5000;
                 operacoes := [ Exemplo.ganho 10;
                                {| createdAt := Some Exemplo.t0; amount := NaN;
                                   result := "LOSS"; outros := [] |} ] |};
     leituras := 0;
     idsGerados := 0 |}.

End Exemplo2.

(** * Properties *)

Import Principal Ledger.
Local Open Scope m_scope.

(** ** The host of the examples answers as expected *)

Example startOfMonthUTC_exemplos :
  Exemplo.startOfMonthUTC Exemplo.t0 = Exemplo.novembro
  /\ Exemplo.startOfMonthUTC 0 = 0%Z
  /\ Exemplo.startOfMonthUTC (-1) = (-2678400000)%Z
  /\ Exemplo.startOfMonthUTC 1709251199999 = 1706745600000%Z
  /\ Exemplo.startOfMonthUTC 1709251200000 = 1709251200000%Z.
Proof. vm_compute. repeat split. Qed.

Example numeroDecimal_exemplos :
  Exemplo.numeroDecimal "100" = Fin 100
  /\ Exemplo.numeroDecimal "" = Fin 0
  /\ Exemplo.numeroDecimal "-5" = Fin (-5)
  /\ Exemplo.numeroDecimal "abc" = NaN.
Proof. vm_compute. repeat split. Qed.

(** ** Numbers *)

Lemma eqv_refl a : a =~ a.
Proof. destruct a; simpl; auto. reflexivity. Qed.

Lemma leb_zero_not_gtb a : (a <=? Fin 0)%js = true -> (a >? Fin 0)%js = false.
Proof.
  destruct a as [| |q|]; simpl; try discriminate; auto.
  unfold gtb; simpl. intros ->. reflexivity.
Qed.

Lemma gtb_zero_not_leb a : (a >? Fin 0)%js = true -> (a <=? Fin 0)%js = false.
Proof.
  destruct a as [| |q|]; unfold gtb; simpl; try discriminate; auto.
  destruct (Qle_bool q 0); simpl; auto; discriminate.
Qed.

Lemma leb_not_ltb a b : (a <=? b)%js = true -> (b <? a)%js = false.
Proof.
  destruct a, b; simpl; try discriminate; auto.
  intros ->. reflexivity.
Qed.

Lemma leb_not_NaN_l a b : (a <=? b)%js = true -> isNaN a = false.
Proof. destruct a; simpl; auto. Qed.

Lemma leb_not_NaN_r a b : (a <=? b)%js = true -> isNaN b = false.
Proof. destruct a, b; simpl; auto. Qed.

(** [!a || a <= 0] is exactly "a is not greater than zero". *)
Lemma rejeita_iff_nao_positivo a :
  negb (truthy a) || (a <=? Fin 0)%js = negb (a >? Fin 0)%js.
Proof.
  destruct a as [| |q|]; unfold gtb; simpl; auto.
  rewrite negb_involutive.
  destruct (Qle_bool q 0) eqn:Hle; [apply orb_true_r|].
  rewrite orb_false_r.
  destruct (Qeq_bool q 0) eqn:Heq; auto.
  apply Qeq_bool_iff in Heq.
  assert (Qle_bool q 0 = true) by (apply Qle_bool_iff; rewrite Heq; apply Qle_refl).
  congruence.
Qed.

(** ** The month filter and the clock *)

Section Calculo.
Context {host : Host}.

Lemma noMes_frame sm o w :
  state (snd (noMes sm o w)) = state w
  /\ idsGerados (snd (noMes sm o w)) = idsGerados w
  /\ leituras w <= leituras (snd (noMes sm o w)) <= S (leituras w).
Proof.
  unfold noMes. destruct (date_geb (createdAt o) sm); simpl; repeat split; lia.
Qed.

Lemma filterM_cons {A} (p : A -> M bool) x l w :
  filterM p (x :: l) w =
  let (keep, w1) := p x w in
  let (tl, w2) := filterM p l w1 in
  (if keep then x :: tl else tl, w2).
Proof.
  simpl. unfold bind at 1. destruct (p x w) as [keep w1].
  unfold bind at 1. destruct (filterM p l w1). reflexivity.
Qed.

Lemma filterM_noMes_frame sm l : forall w,
  state (snd (filterM (noMes sm) l w)) = state w
  /\ idsGerados (snd (filterM (noMes sm) l w)) = idsGerados w
  /\ leituras w <= leituras (snd (filterM (noMes sm) l w)) <= leituras w + length l.
Proof.
  induction l as [|o l IH]; intros w.
  - simpl. repeat split; lia.
  - rewrite filterM_cons.
    pose proof (noMes_frame sm o w) as (Hs & Hi & Hl).
    destruct (noMes sm o w) as [keep w1]. simpl in Hs, Hi, Hl.
    specialize (IH w1).
    destruct (filterM (noMes sm) l w1) as [tl w2]. simpl in *.
    destruct IH as (? & ? & ?). repeat split; try congruence; lia.
Qed.

Lemma filterM_noMes_incl sm l : forall w o,
  In o (fst (filterM (noMes sm) l w)) -> In o l.
Proof.
  induction l as [|x l IH]; intros w o; auto.
  rewrite filterM_cons.
  destruct (noMes sm x w) as [keep w1].
  specialize (IH w1 o).
  destruct (filterM (noMes sm) l w1) as [tl w2]. simpl in *.
  destruct keep; simpl; intuition.
Qed.

Lemma opsDoMes_run w :
  opsDoMes w =
  filterM (noMes (Some (startOfMonth (clock (leituras w)))))
          (operacoes (state w)) (tique w).
Proof. reflexivity. Qed.

End Calculo.

Section Execucao.
Context {host : Host}.

(** The start of the month a call of [calcularKPIs] works with. *)
Lemma calcularKPIs_run w :
  calcularKPIs w =
  (montarKPIs (state w) (Some (startOfMonth (clock (leituras w))))
              (fst (opsDoMes w)),
   snd (opsDoMes w)).
Proof.
  rewrite opsDoMes_run.
  cbv beta iota delta [calcularKPIs bind getState inicioDoMesAtual lerRelogio ret].
  destruct (filterM _ _ _). reflexivity.
Qed.

Lemma calcularKPIs_state w : state (snd (calcularKPIs w)) = state w.
Proof.
  rewrite calcularKPIs_run, opsDoMes_run. simpl.
  apply (filterM_noMes_frame _ _ (tique w)).
Qed.

End Execucao.

Ltac run_kpis := rewrite calcularKPIs_run; cbn [fst snd].

Section Saldo.
Context {host : Host}.

Lemma fold_somaLucro l : forall a,
  fold_left somaLucro l a = fold_left add (map lucro l) a.
Proof.
  induction l as [|o l IH]; intros a; simpl; [reflexivity|].
  rewrite IH. reflexivity.
Qed.

Lemma bancaAtual_calc w :
  Principal.bancaAtual (fst (calcularKPIs w))
  = (bancaInicial (state w) + soma (map lucro (operacoes (state w))))%js.
Proof.
  run_kpis. unfold montarKPIs, soma; cbn [Principal.bancaAtual].
  rewrite fold_somaLucro. reflexivity.
Qed.

End Saldo.

(** ** C1: the balance *)

Section SaldoSozinho.
Context {host : Host}.

(** A form that passes the four checks of script/sozinho.js moves the
    balance by [amount * (payoutPercent / 100)] on a WIN and by [-amount]
    on a LOSS. *)
Lemma sozinho_aceita f banca msg :
  let amount := StringToNumber (Sozinho.inAmount f) in
  let p := StringToNumber (Sozinho.inPayout f) in
  (amount >? Fin 0)%js = true ->
  isNaN p = false -> (p <? Fin 0)%js = false -> (p >? Fin 100)%js = false ->
  Sozinho.inResult f = "WIN" \/ Sozinho.inResult f = "LOSS" ->
  Sozinho.inOperacional f <> "" ->
  Sozinho.onSubmit f banca msg =
  {| Sozinho.bancaAtual :=
       (banca + (if String.eqb (Sozinho.inResult f) "WIN"
                 then amount * (p / Fin 100) else - amount))%js;
     Sozinho.formMsg := setMsg msg "";
     Sozinho.salvo := true |}.
Proof.
  intros amount p Ha Hn Hlo Hhi Hr Hop. unfold Sozinho.onSubmit.
  fold amount. fold p.
  rewrite rejeita_iff_nao_positivo, Ha, Hn, Hlo, Hhi. simpl.
  assert (Hres : negb (String.eqb (Sozinho.inResult f) "WIN")
                 && negb (String.eqb (Sozinho.inResult f) "LOSS") = false).
  { destruct Hr as [-> | ->]; reflexivity. }
  rewrite Hres.
  apply String.eqb_neq in Hop. rewrite Hop. reflexivity.
Qed.

End SaldoSozinho.

(** The payout scenario: the specification's formula gives a profit of 80
    and a balance of 5080, [calcularKPIs] returns 5100. *)
Lemma bancaAtual_ignores_payout :
  let k := fst (calcularKPIs (host := Exemplo.hostDe Exemplo.parado [])
                             Exemplo.mundoPayout) in
  profit_spec Exemplo.opPayout =~ Fin 80
  /\ currentBalance_spec (state Exemplo.mundoPayout) =~ Fin 5080
  /\ Principal.bancaAtual k = Fin 5100
  /\ ~ (Principal.bancaAtual k =~ currentBalance_spec (state Exemplo.mundoPayout)).
Proof.
  vm_compute. repeat split; try reflexivity. intros H. discriminate H.
Qed.

(** C1, as the code has it.  In the main script the balance is the
    initial balance plus the sum, over the log, of [amount] for a WIN and
    of [-amount] otherwise; what else is stored with an operation (a
    payout percentage included) is not read, so the scenario of 5000 with
    one win of 100 at payout 80 has profit 100 and balance 5100.  The
    payout rule lives in the submit handler of script/sozinho.js: an
    accepted form changes the balance by [amount * (payoutPercent / 100)]
    on a WIN and by [-amount] on a LOSS, which takes 5000 to 5080 in the
    scenario. *)
Theorem bancaAtual_soma_lucros :
  (forall (host : Host) (w : World),
      Principal.bancaAtual (fst (calcularKPIs w))
      = (bancaInicial (state w) + soma (map lucro (operacoes (state w))))%js)
  /\ (forall o o' : Operacao,
         amount o = amount o' -> result o = result o' -> lucro o = lucro o')
  /\ (lucro Exemplo.opPayout = Fin 100
      /\ Principal.bancaAtual
           (fst (calcularKPIs (host := Exemplo.hostDe Exemplo.parado [])
                              Exemplo.mundoPayout)) = Fin 5100)
  /\ (forall (host : Host) f banca msg,
         (StringToNumber (Sozinho.inAmount f) >? Fin 0)%js = true ->
         (Fin 0 <=? StringToNumber (Sozinho.inPayout f))%js = true ->
         (StringToNumber (Sozinho.inPayout f) <=? Fin 100)%js = true ->
         Sozinho.inResult f = "WIN" \/ Sozinho.inResult f = "LOSS" ->
         Sozinho.inOperacional f <> "" ->
         Sozinho.bancaAtual (Sozinho.onSubmit f banca msg)
         = (banca + (if String.eqb (Sozinho.inResult f) "WIN"
                     then StringToNumber (Sozinho.inAmount f)
                          * (StringToNumber (Sozinho.inPayout f) / Fin 100)
                     else - StringToNumber (Sozinho.inAmount f)))%js)
  /\ Sozinho.bancaAtual
       (Sozinho.onSubmit (host := Exemplo.hostDe Exemplo.parado [])
                         Exemplo.formPayout (Fin 5000) (Some ""))
     =~ Fin 5080.
Proof.
  split; [intros; apply bancaAtual_calc|].
  split; [intros o o' Ha Hr; unfold lucro; rewrite Ha, Hr; reflexivity|].
  split; [split; vm_compute; reflexivity|].
  split; [|vm_compute; reflexivity].
  intros host f banca msg Ha Hlo Hhi Hr Hop.
  rewrite sozinho_aceita; auto.
  - eapply leb_not_NaN_r; eassumption.
  - apply leb_not_ltb; assumption.
  - apply leb_not_ltb; assumption.
Qed.

(** ** C2: what the KPI computation depends on *)

Lemma noMes_clocks (h1 h2 : Host) sm o w1 w2 :
  @clock h1 (leituras w1) = @clock h2 (leituras w2) ->
  fst (@noMes h1 sm o w1) = fst (@noMes h2 sm o w2)
  /\ ((leituras (snd (@noMes h1 sm o w1)) = leituras w1
       /\ leituras (snd (@noMes h2 sm o w2)) = leituras w2)
      \/ (leituras (snd (@noMes h1 sm o w1)) = S (leituras w1)
          /\ leituras (snd (@noMes h2 sm o w2)) = S (leituras w2))).
Proof.
  intros Hc. unfold noMes.
  destruct (date_geb (createdAt o) sm); simpl.
  - rewrite Hc. auto.
  - auto.
Qed.

Lemma filterM_noMes_clocks (h1 h2 : Host) sm l : forall w1 w2,
  (forall k, k < length l ->
             @clock h1 (leituras w1 + k) = @clock h2 (leituras w2 + k)) ->
  fst (filterM (@noMes h1 sm) l w1) = fst (filterM (@noMes h2 sm) l w2).
Proof.
  induction l as [|o l IH]; intros w1 w2 Hc; [reflexivity|].
  rewrite !filterM_cons.
  destruct (noMes_clocks h1 h2 sm o w1 w2) as (Hk & Hl).
  { specialize (Hc 0). rewrite !Nat.add_0_r in Hc. apply Hc. simpl. lia. }
  destruct (@noMes h1 sm o w1) as [k1 u1], (@noMes h2 sm o w2) as [k2 u2].
  simpl in Hk, Hl. subst k2.
  specialize (IH u1 u2).
  destruct (filterM (@noMes h1 sm) l u1) as [t1 v1],
           (filterM (@noMes h2 sm) l u2) as [t2 v2].
  simpl in *. rewrite IH; [reflexivity|].
  intros k Hlt. destruct Hl as [[-> ->] | [-> ->]].
  - apply Hc. lia.
  - specialize (Hc (S k)). rewrite <- !plus_n_Sm in Hc. apply Hc. lia.
Qed.

(** A call of [calcularKPIs] has no time parameter and reads the clock
    itself: on the untouched initial world the reading count goes from 0
    to 1.  Two calls on one and the same state that both start at the
    instant [t0] return different snapshots when the clock moves on during
    one of them. *)
Lemma calcularKPIs_reads_clock :
  let hA := Exemplo.hostDe Exemplo.parado [] in
  let hB := Exemplo.hostDe Exemplo.andando [] in
  leituras world0 = 0
  /\ leituras (snd (calcularKPIs (host := hA) world0)) = 1
  /\ @clock hA 0 = @clock hB 0
  /\ winsMes (fst (calcularKPIs (host := hA) Exemplo.mundoAdiante)) = 0
  /\ winsMes (fst (calcularKPIs (host := hB) Exemplo.mundoAdiante)) = 1
  /\ fst (calcularKPIs (host := hA) Exemplo.mundoAdiante)
     <> fst (calcularKPIs (host := hB) Exemplo.mundoAdiante).
Proof.
  vm_compute. repeat split. intros H. discriminate H.
Qed.

(** C2, as the code has it.  [calcularKPIs] takes no argument: it reads
    the global state and the wall clock, once for the start of the month
    and at most once more per operation in the month filter.  It leaves
    the state as it was, and its snapshot is determined by the state, the
    host's calendar and the clock readings it makes: two calls on equal
    states that see equal readings return equal snapshots. *)
Theorem calcularKPIs_deterministic (h1 h2 : Host) (w1 w2 : World) :
  state w1 = state w2 ->
  (forall t, @startOfMonth h1 t = @startOfMonth h2 t) ->
  (forall k, k <= length (operacoes (state w1)) ->
             @clock h1 (leituras w1 + k) = @clock h2 (leituras w2 + k)) ->
  fst (@calcularKPIs h1 w1) = fst (@calcularKPIs h2 w2)
  /\ state (snd (@calcularKPIs h1 w1)) = state w1
  /\ leituras w1 < leituras (snd (@calcularKPIs h1 w1))
     <= leituras w1 + 1 + length (operacoes (state w1)).
Proof.
  intros Hst Hsm Hc. split; [|split].
  - rewrite !calcularKPIs_run, !opsDoMes_run. cbn [fst].
    assert (H0 : @clock h1 (leituras w1) = @clock h2 (leituras w2)).
    { specialize (Hc 0). rewrite !Nat.add_0_r in Hc. apply Hc. lia. }
    rewrite Hsm, H0, <- Hst.
    f_equal.
    apply filterM_noMes_clocks.
    intros k Hk. simpl. specialize (Hc (S k)).
    rewrite <- !plus_n_Sm in Hc. apply Hc. lia.
  - apply calcularKPIs_state.
  - rewrite calcularKPIs_run, opsDoMes_run. cbn [snd].
    pose proof (@filterM_noMes_frame h1
                  (Some (@startOfMonth h1 (@clock h1 (leituras w1))))
                  (operacoes (state w1)) (tique w1)) as (_ & _ & Hl).
    change (leituras (tique w1)) with (S (leituras w1)) in Hl. lia.
Qed.

Lemma calcularKPIs_deterministic_witness :
  fst (calcularKPIs (host := Exemplo.hostDe Exemplo.parado []) Exemplo.mundoPayout)
  = fst (calcularKPIs (host := Exemplo.hostDe (Exemplo.paradoAte 1) [])
                      Exemplo.mundoPayout).
Proof.
  refine (proj1 (calcularKPIs_deterministic
           (Exemplo.hostDe Exemplo.parado [])
           (Exemplo.hostDe (Exemplo.paradoAte 1) [])
           Exemplo.mundoPayout Exemplo.mundoPayout _ _ _)).
  - reflexivity.
  - intros t. reflexivity.
  - intros k Hk. simpl in Hk.
    destruct k as [|[|k]]; [reflexivity | reflexivity | lia].
Defined.

(** ** C3: the hit rate *)

Lemma razao_entre_0_e_100 (a b : nat) :
  0 < a + b ->
  (of_nat a / of_nat (a + b) * Fin 100)%js
  = Fin (inject_Z (Z.of_nat a) / inject_Z (Z.of_nat (a + b)) * 100)%Q
  /\ (0 <= inject_Z (Z.of_nat a) / inject_Z (Z.of_nat (a + b)) * 100 <= 100)%Q.
Proof.
  intros Hpos.
  set (x := inject_Z (Z.of_nat a)). set (y := inject_Z (Z.of_nat (a + b))).
  assert (Hy : (0 < y)%Q).
  { unfold y. change 0%Q with (inject_Z 0). rewrite <- Zlt_Qlt. lia. }
  assert (Hx : (0 <= x)%Q).
  { unfold x. change 0%Q with (inject_Z 0). rewrite <- Zle_Qle. lia. }
  assert (Hxy : (x <= y)%Q).
  { unfold x, y. rewrite <- Zle_Qle. lia. }
  split.
  - unfold of_nat, of_Z. fold x. fold y. unfold div, sgn.
    apply Qgt_alt in Hy. rewrite Hy. reflexivity.
  - assert (H0 : (0 <= x / y)%Q).
    { apply Qle_shift_div_l; [assumption|]. lra. }
    assert (H1 : (x / y <= 1)%Q).
    { apply Qle_shift_div_r; [assumption|]. lra. }
    lra.
Qed.

(** C3.  The hit rate of every snapshot lies between 0 and 100.  It is 0
    when the month has no operation (then [winsMes + lossesMes = 0]), and
    [winsMes / (winsMes + lossesMes) * 100] otherwise, where [winsMes] and
    [lossesMes] count the WIN and the LOSS results of the month. *)
Theorem taxaAcerto_range {host : Host} (w : World) :
  let k := fst (calcularKPIs w) in
  let mes := fst (opsDoMes w) in
  ((Fin 0 <=? taxaAcerto k)%js = true /\ (taxaAcerto k <=? Fin 100)%js = true)
  /\ winsMes k = length (filter (fun o => String.eqb (result o) "WIN") mes)
  /\ lossesMes k = length (filter (fun o => String.eqb (result o) "LOSS") mes)
  /\ (mes = [] -> winsMes k + lossesMes k = 0)
  /\ (winsMes k + lossesMes k = 0 -> taxaAcerto k = Fin 0)
  /\ (0 < winsMes k + lossesMes k ->
      taxaAcerto k
      = (of_nat (winsMes k) / of_nat (winsMes k + lossesMes k) * Fin 100)%js
      /\ taxaAcerto k
         =~ Fin (inject_Z (Z.of_nat (winsMes k))
                 / inject_Z (Z.of_nat (winsMes k + lossesMes k)) * 100)%Q).
Proof.
  intros k mes. subst k. rewrite calcularKPIs_run. cbn [fst].
  fold mes. unfold montarKPIs. cbn [taxaAcerto winsMes lossesMes].
  set (a := length (filter (fun o => String.eqb (result o) "WIN") mes)).
  set (b := length (filter (fun o => String.eqb (result o) "LOSS") mes)).
  destruct (Nat.ltb_spec 0 (a + b)) as [Hpos | Hzero].
  - destruct (razao_entre_0_e_100 a b Hpos) as (Heq & Hlo & Hhi).
    rewrite Heq. simpl.
    repeat split; try (apply Qle_bool_iff; assumption); try lia; try reflexivity.
    intros Hmes. subst a b. rewrite Hmes in Hpos. simpl in Hpos. lia.
  - repeat split; try reflexivity; try lia.
Qed.

Lemma taxaAcerto_range_witness :
  let h := Exemplo.hostDe Exemplo.parado [] in
  let k := fst (calcularKPIs (host := h) Exemplo.mundoPayout) in
  0 < winsMes k + lossesMes k
  /\ taxaAcerto k =~ Fin 100
  /\ taxaAcerto (fst (calcularKPIs (host := h) world0)) = Fin 0.
Proof.
  pose proof (taxaAcerto_range (host := Exemplo.hostDe Exemplo.parado [])
                               Exemplo.mundoPayout) as (_ & _ & _ & _ & _ & Hpos).
  pose proof (taxaAcerto_range (host := Exemplo.hostDe Exemplo.parado [])
                               world0) as (_ & _ & _ & _ & Hzero & _).
  split; [vm_compute; reflexivity|].
  split.
  - destruct Hpos as (Heq & _); [vm_compute; reflexivity|].
    rewrite Heq. vm_compute. reflexivity.
  - apply Hzero. reflexivity.
Defined.

(** ** C6: the variation of the month *)

(** C6.  The baseline of the month is the initial balance plus the profit
    of the operations created before the start of the month; the variation
    in value is the profit of the month.  When the baseline is at most 0
    the variation in percent is 0 whatever the profit of the month; when
    it is greater than 0 the variation in percent is
    [profit / baseline * 100]. *)
Theorem variacaoPct_policy {host : Host} (w : World) :
  let k := fst (calcularKPIs w) in
  let inicio := Some (startOfMonth (clock (leituras w))) in
  baselineMes k
  = (bancaInicial (state w)
     + soma (map lucro (filter (fun o => date_ltb (createdAt o) inicio)
                               (operacoes (state w)))))%js
  /\ variacaoValor k = lucroMes k
  /\ lucroMes k = soma (map lucro (fst (opsDoMes w)))
  /\ ((baselineMes k <=? Fin 0)%js = true -> variacaoPct k = Fin 0)
  /\ ((baselineMes k >? Fin 0)%js = true ->
      variacaoPct k = (lucroMes k / baselineMes k * Fin 100)%js).
Proof.
  intros k inicio. subst k inicio. rewrite calcularKPIs_run. cbn [fst].
  unfold montarKPIs.
  cbn [baselineMes variacaoValor lucroMes variacaoPct].
  unfold soma. rewrite <- !fold_somaLucro.
  repeat split.
  - intros Hle. rewrite (leb_zero_not_gtb _ Hle). reflexivity.
  - intros Hgt. rewrite Hgt. reflexivity.
Qed.

Lemma variacaoPct_policy_witness :
  let h := Exemplo.hostDe Exemplo.parado [] in
  variacaoPct (fst (calcularKPIs (host := h) Exemplo.mundoSemBase)) = Fin 0
  /\ lucroMes (fst (calcularKPIs (host := h) Exemplo.mundoSemBase)) = Fin 100
  /\ variacaoPct (fst (calcularKPIs (host := h) Exemplo.mundoPayout)) =~ Fin 2.
Proof.
  pose proof (variacaoPct_policy (host := Exemplo.hostDe Exemplo.parado [])
                                 Exemplo.mundoSemBase) as (_ & _ & _ & Hle & _).
  pose proof (variacaoPct_policy (host := Exemplo.hostDe Exemplo.parado [])
                                 Exemplo.mundoPayout) as (_ & _ & _ & _ & Hgt).
  split; [apply Hle; vm_compute; reflexivity|].
  split; [vm_compute; reflexivity|].
  rewrite Hgt; vm_compute; reflexivity.
Defined.

(** ** C5 and C4: the streaks *)

Section Streaks.

Lemma firstn_snoc_nth (l : list Operacao) : forall i o,
  nth_error l i = Some o -> firstn (S i) l = firstn i l ++ [o].
Proof.
  induction l as [|x l IH]; intros [|i] o H; simpl in *; try discriminate.
  - congruence.
  - rewrite (IH i o H). reflexivity.
Qed.

(** Below the last index the loop only extends the run or breaks. *)
Lemma streakLoop_below ops t : forall n c,
  n <= length ops - 1 -> n < length ops ->
  streakLoop ops n (c, Some t)
  = (c + runLength t (rev (firstn n ops)), Some t).
Proof.
  induction n as [|i IH]; intros c Hle Hlt.
  - simpl. f_equal. lia.
  - cbn [streakLoop].
    destruct (Nat.eqb_spec i (length ops - 1)) as [Heq | _]; [lia|].
    destruct (nth_error ops i) as [o|] eqn:Hnth.
    + rewrite (firstn_snoc_nth ops i o Hnth), rev_unit.
      cbn [sameTipo snd fst runLength].
      destruct (String.eqb (result o) t).
      * rewrite IH by lia. f_equal. lia.
      * f_equal. lia.
    + apply nth_error_None in Hnth. lia.
Qed.

(** Once the type of the streak is null nothing is counted. *)
Lemma streakLoop_null ops n :
  n <= length ops - 1 -> n < length ops ->
  streakLoop ops n (0, None) = (0, None).
Proof.
  intros Hle Hlt. destruct n as [|i]; simpl; [reflexivity|].
  destruct (Nat.eqb_spec i (length ops - 1)) as [Heq | _]; [lia|].
  destruct (nth_error ops i); reflexivity.
Qed.

Lemma streakLoop_snoc l o :
  streakLoop (l ++ [o]) (length (l ++ [o])) (0, None)
  = if String.eqb (result o) ""
    then (0, None)
    else (S (runLength (result o) (rev l)), Some (result o)).
Proof.
  rewrite length_app. simpl length. rewrite Nat.add_1_r. simpl streakLoop.
  rewrite length_app. simpl length.
  replace (length l + 1 - 1) with (length l) by lia.
  rewrite Nat.eqb_refl.
  rewrite nth_error_app2 by lia. rewrite Nat.sub_diag. simpl nth_error.
  unfold resultOrNull.
  destruct (String.eqb (result o) "").
  - destruct l as [|x l]; [reflexivity|].
    apply streakLoop_null; rewrite length_app; simpl; lia.
  - destruct l as [|x l]; [reflexivity|].
    rewrite streakLoop_below by (rewrite length_app; simpl; lia).
    rewrite firstn_app, firstn_all, Nat.sub_diag. simpl firstn.
    rewrite app_nil_r. reflexivity.
Qed.

Lemma streakLoop_spec ops :
  (forall o, lastResult ops = Some (result o) -> result o <> "") ->
  streakLoop ops (length ops) (0, None) = (trailingRun ops, lastResult ops).
Proof.
  intros Hlast. destruct ops as [|x l] using rev_ind; [reflexivity|].
  rewrite streakLoop_snoc. unfold trailingRun, lastResult in *.
  rewrite rev_unit in *.
  specialize (Hlast x eq_refl). apply String.eqb_neq in Hlast.
  rewrite Hlast. reflexivity.
Qed.

Lemma estadoValido_last st :
  estadoValido st ->
  forall o, lastResult (operacoes st) = Some (result o) -> result o <> "".
Proof.
  unfold estadoValido, lastResult. intros Hv o.
  destruct (rev (operacoes st)) as [|x r] eqn:Hrev; [discriminate|].
  intros Heq. injection Heq as Heq.
  assert (Hin : In x (operacoes st)).
  { apply in_rev. rewrite Hrev. left. reflexivity. }
  rewrite Forall_forall in Hv. destruct (Hv x Hin) as [Hr | Hr];
    rewrite <- Heq, Hr; discriminate.
Qed.

(** The running counter of the forward loop is the trailing run of WIN
    results, and the maximum never falls below it. *)
Lemma passoStreakMax_trailing l :
  snd (fold_left passoStreakMax l (0, 0)) = runLength "WIN" (rev l)
  /\ snd (fold_left passoStreakMax l (0, 0))
     <= fst (fold_left passoStreakMax l (0, 0)).
Proof.
  induction l as [|o l [IHs IHm]] using rev_ind; [simpl; lia|].
  rewrite fold_left_app, rev_unit.
  destruct (fold_left passoStreakMax l (0, 0)) as [mx cur].
  simpl in *. unfold passoStreakMax. simpl.
  destruct (String.eqb (result o) "WIN"); simpl; lia.
Qed.

Lemma runLength_le_longest l : runLength "WIN" l <= longestWinRun l.
Proof. destruct l; simpl; lia. Qed.

Lemma passoStreakMax_longest l : forall mx cur,
  cur <= mx ->
  fst (fold_left passoStreakMax l (mx, cur))
  = Nat.max mx (Nat.max (cur + runLength "WIN" l) (longestWinRun l)).
Proof.
  induction l as [|o l IH]; intros mx cur Hle.
  - simpl. lia.
  - cbn [fold_left]. unfold passoStreakMax at 2. cbn [fst snd].
    cbn [longestWinRun runLength].
    pose proof (runLength_le_longest l).
    destruct (String.eqb (result o) "WIN").
    + rewrite IH by lia. lia.
    + rewrite IH by lia. lia.
Qed.

End Streaks.

(** C5.  On a ledger whose results are WIN or LOSS the current streak is
    the number of consecutive trailing operations that share the result
    of the last one, and its type is that result; on an empty log the
    streak is 0 and has no type.  For a balance of 5000 and two losses of
    50 the balance is 4900, the longest WIN streak 0, the current streak 2
    of type LOSS. *)
Theorem streakAtual_trailing :
  (forall (host : Host) (w : World),
      estadoValido (state w) ->
      streakAtual (fst (calcularKPIs w)) = trailingRun (operacoes (state w))
      /\ streakTipo (fst (calcularKPIs w)) = lastResult (operacoes (state w)))
  /\ (forall (host : Host) (w : World),
         operacoes (state w) = [] ->
         streakAtual (fst (calcularKPIs w)) = 0
         /\ streakTipo (fst (calcularKPIs w)) = None)
  /\ (forall (host : Host),
         let k := fst (calcularKPIs Exemplo.mundoDuasPerdas) in
         Principal.bancaAtual k = Fin 4900
         /\ streakMax k = 0
         /\ streakAtual k = 2
         /\ streakTipo k = Some "LOSS").
Proof.
  split; [|split].
  - intros host w Hv. rewrite calcularKPIs_run. cbn [fst].
    unfold montarKPIs. cbn [streakAtual streakTipo].
    rewrite (streakLoop_spec _ (estadoValido_last _ Hv)). split; reflexivity.
  - intros host w Hnil. rewrite calcularKPIs_run. cbn [fst].
    unfold montarKPIs. cbn [streakAtual streakTipo].
    rewrite Hnil. split; reflexivity.
  - intros host k. subst k. rewrite calcularKPIs_run. cbn [fst].
    unfold montarKPIs.
    cbn [Principal.bancaAtual streakMax streakAtual streakTipo].
    repeat split; reflexivity.
Qed.

Lemma streakAtual_trailing_witness :
  let h := Exemplo.hostDe Exemplo.parado [] in
  estadoValido (state Exemplo.mundoSequencia)
  /\ streakAtual (fst (calcularKPIs (host := h) Exemplo.mundoSequencia))
     = trailingRun (operacoes (state Exemplo.mundoSequencia))
  /\ trailingRun (operacoes (state Exemplo.mundoSequencia)) = 1.
Proof.
  assert (Hv : estadoValido (state Exemplo.mundoSequencia)).
  { unfold estadoValido, resultadoValido. simpl.
    repeat (apply Forall_cons; [simpl; auto|]). apply Forall_nil. }
  split; [exact Hv|]. split; [|reflexivity].
  exact (proj1 (proj1 streakAtual_trailing
                  (Exemplo.hostDe Exemplo.parado []) Exemplo.mundoSequencia Hv)).
Defined.

(** C4.  The longest WIN streak is the longest run of consecutive WIN
    results anywhere in the log, and whenever the current streak is of
    type WIN it is at most that maximum. *)
Theorem streakMax_ge_streakAtual {host : Host} (w : World) :
  let k := fst (calcularKPIs w) in
  streakMax k = longestWinRun (operacoes (state w))
  /\ (streakTipo k = Some "WIN" -> streakAtual k <= streakMax k).
Proof.
  intros k. subst k. rewrite calcularKPIs_run. cbn [fst].
  unfold montarKPIs. cbn [streakAtual streakTipo streakMax].
  split.
  - rewrite passoStreakMax_longest by lia. simpl.
    pose proof (runLength_le_longest (operacoes (state w))). lia.
  - destruct (operacoes (state w)) as [|o l] using rev_ind.
    + simpl. discriminate.
    + rewrite streakLoop_snoc.
      destruct (String.eqb (result o) "") eqn:He; [simpl; discriminate|].
      cbn [fst snd]. intros Ht. injection Ht as Ht.
      destruct (passoStreakMax_trailing (l ++ [o])) as (Hs & Hm).
      rewrite rev_unit in Hs. simpl in Hs. rewrite Ht in *. simpl in Hs.
      lia.
Qed.

Lemma streakMax_ge_streakAtual_witness :
  let k := fst (calcularKPIs (host := Exemplo.hostDe Exemplo.parado [])
                             Exemplo.mundoSequencia) in
  streakTipo k = Some "WIN" /\ streakAtual k = 1 /\ streakMax k = 2
  /\ streakAtual k <= streakMax k.
Proof.
  split; [reflexivity|]. split; [reflexivity|]. split; [reflexivity|].
  apply (streakMax_ge_streakAtual (host := Exemplo.hostDe Exemplo.parado [])
                                  Exemplo.mundoSequencia).
  reflexivity.
Defined.

Lemma bancaAtual_soma_lucros_witness :
  Sozinho.bancaAtual
    (Sozinho.onSubmit (host := Exemplo.hostDe Exemplo.parado [])
                      Exemplo.formPayout (Fin 5000) None)
  = (Fin 5000 + Fin 100 * (Fin 80 / Fin 100))%js.
Proof.
  apply (proj1 (proj2 (proj2 (proj2 bancaAtual_soma_lucros)))
           (Exemplo.hostDe Exemplo.parado []) Exemplo.formPayout (Fin 5000) None).
  - reflexivity.
  - reflexivity.
  - reflexivity.
  - left. reflexivity.
  - discriminate.
Defined.

(** ** The loader and the append *)

Ltac run_m :=
  cbv beta iota delta [bindE bind lift orThrow retE throw ret getState setState
                       tryCatch newDate lerRelogio novoId paraNumero paraData].

Section Carga.
Context {host : Host}.

Lemma getProp_other_key o k v k' :
  getProp o k = Some v -> exists v', getProp o k' = Some v'.
Proof.
  destruct o; simpl; try discriminate; eauto.
  intros _. destruct (lookup k' fields); eauto.
Qed.

Lemma normalizar_valido r : normalizar r = "WIN" \/ normalizar r = "LOSS".
Proof. unfold normalizar. destruct (strictEqStr r "WIN"); auto. Qed.

(** The callback of the loader touches the clock only, and what it
    returns carries the normalised result of the stored record. *)
Lemma reconstruir_frame o w :
  state (snd (reconstruir o w)) = state w
  /\ forall op, fst (reconstruir o w) = Done op ->
       exists r, getProp o "result" = Some r /\ result op = normalizar r.
Proof.
  unfold reconstruir.
  destruct (getProp o "createdAt") as [c|] eqn:Hc.
  - destruct (getProp_other_key o _ _ "amount" Hc) as [a Ha].
    destruct (getProp_other_key o _ _ "result" Hc) as [r Hr].
    rewrite Ha, Hr. run_m.
    destruct (truthyV c), (convertivel c), (convertivel a); cbn;
      (split; [reflexivity|]); intros op Hop;
      try discriminate Hop;
      injection Hop as <-; exists r; split; reflexivity.
  - run_m. cbn. split; [reflexivity|]. intros op Hop. discriminate Hop.
Qed.

Lemma mapE_cons {A B} (f : A -> E B) x l w :
  mapE f (x :: l) w =
  match f x w with
  | (Done y, w1) =>
      match mapE f l w1 with
      | (Done ys, w2) => (Done (y :: ys), w2)
      | (Thrown, w2) => (Thrown, w2)
      end
  | (Thrown, w1) => (Thrown, w1)
  end.
Proof.
  simpl. unfold bindE at 1. unfold bind at 1.
  destruct (f x w) as [[y|] w1]; [|reflexivity].
  unfold bindE at 1. unfold bind at 1.
  destruct (mapE f l w1) as [[ys|] w2]; reflexivity.
Qed.

Lemma mapE_reconstruir_frame l : forall w,
  state (snd (mapE reconstruir l w)) = state w
  /\ forall ops, fst (mapE reconstruir l w) = Done ops ->
       Forall2 (fun o op => exists r, getProp o "result" = Some r
                                      /\ result op = normalizar r) l ops.
Proof.
  induction l as [|o l IH]; intros w.
  - simpl. split; [reflexivity|]. intros ops H. injection H as <-. constructor.
  - rewrite mapE_cons.
    destruct (reconstruir_frame o w) as (Hs & Hop).
    destruct (reconstruir o w) as [[op|] w1]; simpl in Hs, Hop.
    + destruct (IH w1) as (Hs1 & Hops).
      destruct (mapE reconstruir l w1) as [[ys|] w2]; simpl in *.
      * split; [congruence|]. intros ops H. injection H as <-.
        constructor; auto.
      * split; [congruence|]. intros ops H. discriminate H.
    + simpl. split; [assumption|]. intros ops H. discriminate H.
Qed.

(** Nothing stored, an empty text, a text that is not JSON, or a text that
    parses to null: the loader returns with the world as it was. *)
Lemma carregarLocal_sem_efeito raw w :
  raw = None \/ raw = Some ""
  \/ (exists s, raw = Some s
                /\ (JSON_parse s = None
                    \/ exists p, JSON_parse s = Some p
                                 /\ getProp p "bancaInicial" = None)) ->
  carregarLocal raw w = (tt, w).
Proof.
  intros [-> | [-> | (s & -> & Hs)]]; try reflexivity.
  unfold carregarLocal. destruct (String.eqb s ""); [reflexivity|].
  destruct Hs as [Hp | (p & Hp & Hb)]; rewrite Hp; run_m; cbn.
  - reflexivity.
  - rewrite Hb. reflexivity.
Qed.

(** The stored balance has no primitive form: [Number] throws inside the
    [try] before anything is assigned. *)
Lemma carregarLocal_nao_converte s parsed b w :
  JSON_parse s = Some parsed ->
  getProp parsed "bancaInicial" = Some b ->
  convertivel b = false ->
  carregarLocal (Some s) w = (tt, w).
Proof.
  intros Hp Hb Hc. unfold carregarLocal.
  destruct (String.eqb s ""); [reflexivity|].
  rewrite Hp. run_m. cbn. rewrite Hb. cbn. rewrite Hc. reflexivity.
Qed.

Lemma carregarLocal_lido s parsed b w :
  s <> "" -> JSON_parse s = Some parsed ->
  getProp parsed "bancaInicial" = Some b ->
  convertivel b = true ->
  exists o, getProp parsed "operacoes" = Some o
  /\ bancaInicial (state (snd (carregarLocal (Some s) w)))
     = (if truthy (Number b) then Number b else Fin 0)
  /\ match o with
     | VArr l =>
         match fst (mapE reconstruir l (comBanca b w)) with
         | Done ops => operacoes (state (snd (carregarLocal (Some s) w))) = ops
         | Thrown => operacoes (state (snd (carregarLocal (Some s) w)))
                     = operacoes (state w)
         end
     | _ => operacoes (state (snd (carregarLocal (Some s) w))) = []
     end.
Proof.
  intros Hs Hp Hb Hc.
  destruct (getProp_other_key _ _ _ "operacoes" Hb) as [o Ho].
  exists o. split; [assumption|].
  unfold carregarLocal. apply String.eqb_neq in Hs. rewrite Hs, Hp.
  run_m. cbn. rewrite Hb. cbn. rewrite Hc, Ho. cbn. fold (comBanca b w).
  destruct o; cbn; try (split; reflexivity).
  destruct (mapE_reconstruir_frame elems (comBanca b w)) as (Hst & _).
  destruct (mapE reconstruir elems (comBanca b w)) as [[ops|] w2]; cbn in *.
  - rewrite Hst. split; reflexivity.
  - rewrite Hst. split; reflexivity.
Qed.

End Carga.

Section Passos.
Context {host : Host}.

Lemma carregarLocal_valido raw w :
  estadoValido (state w) -> estadoValido (state (snd (carregarLocal raw w))).
Proof.
  intros Hv. destruct raw as [s|]; [|exact Hv].
  destruct (String.eqb_spec s "") as [-> | Hs]; [exact Hv|].
  destruct (JSON_parse s) as [parsed|] eqn:Hp.
  - destruct (getProp parsed "bancaInicial") as [b|] eqn:Hb.
    + destruct (convertivel b) eqn:Hc;
        [|rewrite (carregarLocal_nao_converte s parsed b w Hp Hb Hc); exact Hv].
      destruct (carregarLocal_lido s parsed b w Hs Hp Hb Hc) as (o & _ & _ & Hops).
      unfold estadoValido in *.
      destruct o; try (rewrite Hops; constructor).
      destruct (mapE_reconstruir_frame elems (comBanca b w)) as (_ & Hf).
      destruct (fst (mapE reconstruir elems (comBanca b w))) as [ops|].
      * rewrite Hops. specialize (Hf ops eq_refl).
        clear -Hf. induction Hf as [|o op l ops (r & _ & Hr) _ IH]; constructor; auto.
        unfold resultadoValido. rewrite Hr. apply normalizar_valido.
      * rewrite Hops. exact Hv.
    + rewrite carregarLocal_sem_efeito; [exact Hv|].
      right; right. exists s. split; [reflexivity|]. right. eauto.
  - rewrite carregarLocal_sem_efeito; [exact Hv|].
    right; right. exists s. split; [reflexivity|]. left. assumption.
Qed.

Lemma render_state w : state (snd (render w)) = state w.
Proof.
  unfold render, bind. pose proof (calcularKPIs_state w) as H.
  destruct (calcularKPIs w) as [k w1]. exact H.
Qed.

(** The append: the log grows by exactly one operation, whose result is
    normalised, whether or not the save that follows throws. *)
Lemma adicionarOperacao_state a w :
  state (snd (adicionarOperacao a w))
  = {| bancaInicial := bancaInicial (state w);
       operacoes := operacoes (state w) ++ [novaOperacao a w] |}.
Proof.
  unfold adicionarOperacao, salvarLocal. run_m. cbn.
  destruct (forallb _ _); cbn; [|reflexivity].
  fold (novaOperacao a w).
  match goal with |- context [render ?u] => pose proof (render_state u) as H;
    destruct (render u) as [x w1] end.
  exact H.
Qed.

End Passos.

(** ** C8: the submit handlers reject what fails validation *)

Lemma setMsg_setMsg msg a b : setMsg (setMsg msg a) b = setMsg msg b.
Proof. destruct msg; reflexivity. Qed.

Lemma fora_de_0_100 p :
  (Fin 0 <=? p)%js && (p <=? Fin 100)%js = false ->
  isNaN p || (p <? Fin 0)%js || (p >? Fin 100)%js = true.
Proof.
  destruct p as [| |q|]; unfold gtb; simpl; auto.
  destruct (Qle_bool 0 q), (Qle_bool q 100); simpl; auto.
Qed.

Lemma resultado_invalido r :
  r <> "WIN" /\ r <> "LOSS" ->
  negb (String.eqb r "WIN") && negb (String.eqb r "LOSS") = true.
Proof.
  intros [Hw Hl]. apply String.eqb_neq in Hw, Hl. rewrite Hw, Hl. reflexivity.
Qed.

(** C8.  A form that fails validation (the amount is not a number greater
    than zero, the result is neither WIN nor LOSS, or, where the form has a
    payout, the payout is not within 0 and 100) is rejected by the submit
    handler: it writes a non-empty message into the element [formMsg] of
    the page and returns with the world, or the balance, exactly as it
    was; nothing is appended or stored. *)
Theorem submit_rejects_invalid {host : Host} :
  (forall (f : Principal.Formulario) (msg : option string) (w : World),
      (StringToNumber (Principal.inAmount f) >? Fin 0)%js = false
      \/ (Principal.inResult f <> "WIN" /\ Principal.inResult f <> "LOSS") ->
      exists texto,
        texto <> ""
        /\ Principal.onSubmit f msg w
           = (Done {| Principal.formMsg := setMsg msg texto; fechado := false |}, w))
  /\ (forall (f : Sozinho.Formulario) (banca : number) (msg : option string),
         (StringToNumber (Sozinho.inAmount f) >? Fin 0)%js = false
         \/ (Fin 0 <=? StringToNumber (Sozinho.inPayout f))%js
            && (StringToNumber (Sozinho.inPayout f) <=? Fin 100)%js = false
         \/ (Sozinho.inResult f <> "WIN" /\ Sozinho.inResult f <> "LOSS") ->
         exists texto,
           texto <> ""
           /\ Sozinho.onSubmit f banca msg
              = {| Sozinho.bancaAtual := banca;
                   Sozinho.formMsg := setMsg msg texto;
                   Sozinho.salvo := false |})
  /\ (forall old texto : string, setMsg (Some old) texto = Some texto).
Proof.
  split; [|split]; [| |reflexivity].
  - intros f msg w H. unfold Principal.onSubmit.
    rewrite rejeita_iff_nao_positivo.
    destruct (StringToNumber (Principal.inAmount f) >? Fin 0)%js eqn:Ha; cbn [negb].
    + destruct H as [H | H]; [discriminate H|].
      rewrite (resultado_invalido _ H), setMsg_setMsg.
      eexists. split; [|reflexivity]. discriminate.
    + rewrite setMsg_setMsg. eexists. split; [|reflexivity]. discriminate.
  - intros f banca msg H. unfold Sozinho.onSubmit.
    rewrite rejeita_iff_nao_positivo.
    destruct (StringToNumber (Sozinho.inAmount f) >? Fin 0)%js eqn:Ha; cbn [negb].
    + destruct ((Fin 0 <=? StringToNumber (Sozinho.inPayout f))%js
                && (StringToNumber (Sozinho.inPayout f) <=? Fin 100)%js) eqn:Hp.
      * destruct H as [H | [H | H]]; try discriminate H.
        destruct (isNaN _ || _ || _).
        -- rewrite setMsg_setMsg. eexists. split; [|reflexivity]. discriminate.
        -- rewrite (resultado_invalido _ H), setMsg_setMsg.
           eexists. split; [|reflexivity]. discriminate.
      * rewrite (fora_de_0_100 _ Hp), setMsg_setMsg.
        eexists. split; [|reflexivity]. discriminate.
    + rewrite setMsg_setMsg. eexists. split; [|reflexivity]. discriminate.
Qed.

Lemma submit_rejects_invalid_witness :
  (exists texto,
      texto <> ""
      /\ Principal.onSubmit (host := Exemplo.navegador) Exemplo.formZero (Some "") world0
         = (Done {| Principal.formMsg := Some texto; fechado := false |}, world0))
  /\ (exists texto,
         texto <> ""
         /\ Sozinho.onSubmit (host := Exemplo.navegador) Exemplo.formPayout150
                             (Fin 5000) (Some "")
            = {| Sozinho.bancaAtual := Fin 5000;
                 Sozinho.formMsg := Some texto;
                 Sozinho.salvo := false |}).
Proof.
  split.
  - apply (proj1 (submit_rejects_invalid (host := Exemplo.navegador))
             Exemplo.formZero (Some "") world0).
    left. reflexivity.
  - apply (proj1 (proj2 (submit_rejects_invalid (host := Exemplo.navegador)))
             Exemplo.formPayout150 (Fin 5000) (Some "")).
    right. left. reflexivity.
Defined.

(** ** C9: only WIN and LOSS are ever stored *)

Section Invariante.
Context {host : Host}.

Lemma adicionarOperacao_valido a w :
  estadoValido (state w) -> estadoValido (state (snd (adicionarOperacao a w))).
Proof.
  intros Hv. rewrite adicionarOperacao_state. unfold estadoValido in *. simpl.
  apply Forall_app. split; [exact Hv|].
  constructor; [|constructor]. apply normalizar_valido.
Qed.

Lemma onSubmit_valido f msg w :
  estadoValido (state w) -> estadoValido (state (snd (Principal.onSubmit f msg w))).
Proof.
  intros Hv. unfold Principal.onSubmit.
  destruct (negb _ || _); [exact Hv|].
  destruct (negb _ && _); [exact Hv|].
  unfold bindE at 1. unfold bind at 1.
  match goal with |- context [adicionarOperacao ?a w] =>
    pose proof (adicionarOperacao_valido a w Hv) as H;
    destruct (adicionarOperacao a w) as [[u|] w1] end; exact H.
Qed.

Lemma passo_valido w w' :
  passo w w' -> estadoValido (state w) -> estadoValido (state w').
Proof.
  intros [raw u | a u | u | f msg u] Hv.
  - apply carregarLocal_valido, Hv.
  - apply adicionarOperacao_valido, Hv.
  - rewrite render_state. exact Hv.
  - apply onSubmit_valido, Hv.
Qed.

Lemma alcancavel_valido w : alcancavel w -> estadoValido (state w).
Proof.
  induction 1 as [|w w' _ IH Hstep].
  - constructor.
  - exact (passo_valido w w' Hstep IH).
Qed.

Lemma wins_mais_losses (l : list Operacao) :
  Forall resultadoValido l ->
  length (filter (fun o => String.eqb (result o) "WIN") l)
  + length (filter (fun o => String.eqb (result o) "LOSS") l)
  = length l.
Proof.
  induction 1 as [|o l [Hr | Hr] _ IH]; simpl; [reflexivity| |];
    rewrite Hr; simpl; lia.
Qed.

Lemma opsDoMes_valido w :
  estadoValido (state w) -> Forall resultadoValido (fst (opsDoMes w)).
Proof.
  intros Hv. rewrite opsDoMes_run. unfold estadoValido in Hv.
  rewrite Forall_forall in *. intros o Hin.
  apply Hv. eapply filterM_noMes_incl. exact Hin.
Qed.

End Invariante.

(** C9.  Both writers normalise the result: [adicionarOperacao] appends
    one operation whose result is WIN when the argument is the string
    'WIN' and LOSS for anything else, and every operation the loader
    rebuilds has the result WIN when the stored one is the string 'WIN'
    and LOSS otherwise.  Hence in every world the page can reach all
    stored results are WIN or LOSS, and the wins and the losses of the
    month add up to the number of operations of the month. *)
Theorem results_normalised {host : Host} :
  (forall (a : NovaOperacao) (w : World),
      exists op,
        operacoes (state (snd (adicionarOperacao a w)))
        = operacoes (state w) ++ [op]
        /\ result op = (if strictEqStr (nResult a) "WIN" then "WIN" else "LOSS"))
  /\ (forall (l : list value) (w : World) (ops : list Operacao),
         fst (mapE reconstruir l w) = Done ops ->
         Forall2 (fun o op =>
                    exists r, getProp o "result" = Some r
                              /\ result op
                                 = (if strictEqStr r "WIN" then "WIN" else "LOSS"))
                 l ops)
  /\ (forall (raw : option string) (w : World),
         estadoValido (state w) ->
         estadoValido (state (snd (carregarLocal raw w))))
  /\ (forall w : World,
         alcancavel w ->
         estadoValido (state w)
         /\ winsMes (fst (calcularKPIs w)) + lossesMes (fst (calcularKPIs w))
            = length (fst (opsDoMes w))).
Proof.
  split; [|split; [|split]].
  - intros a w. exists (novaOperacao a w).
    rewrite adicionarOperacao_state. split; reflexivity.
  - intros l w ops H. exact (proj2 (mapE_reconstruir_frame l w) ops H).
  - intros raw w. apply carregarLocal_valido.
  - intros w Hw. pose proof (alcancavel_valido w Hw) as Hv.
    split; [exact Hv|].
    rewrite calcularKPIs_run. cbn [fst]. unfold montarKPIs.
    cbn [winsMes lossesMes].
    apply wins_mais_losses, opsDoMes_valido, Hv.
Qed.

Lemma results_normalised_witness :
  let a := {| nAmount := VNum (Fin 10); nResult := VStr "win";
              nStrategy := VUndefined; nDescription := VUndefined |} in
  let w := snd (adicionarOperacao (host := Exemplo.navegador) a world0) in
  alcancavel (host := Exemplo.navegador) w
  /\ map result (operacoes (state w)) = ["LOSS"]
  /\ winsMes (fst (calcularKPIs (host := Exemplo.navegador) w))
     + lossesMes (fst (calcularKPIs (host := Exemplo.navegador) w))
     = length (fst (opsDoMes (host := Exemplo.navegador) w)).
Proof.
  intros a w.
  assert (Hw : alcancavel (host := Exemplo.navegador) w).
  { eapply alc_passo; [apply alc_inicio|]. apply passo_adicionar. }
  split; [exact Hw|]. split; [reflexivity|].
  exact (proj2 (proj2 (proj2 (proj2 (results_normalised (host := Exemplo.navegador))))
                  w Hw)).
Defined.

(** ** C7 and C10: what the loader falls back to *)

(** The stored text [{}] parses, so the loader runs to its end: the
    initial balance becomes 0, not the default 5000.  With
    [{"bancaInicial":7,"operacoes":[null]}] the balance is already 7 when
    the mapping throws. *)
Lemma carregarLocal_wrong_shape :
  @JSON_parse Exemplo.navegador "{}" = Some (VObj [])
  /\ state (snd (carregarLocal (host := Exemplo.navegador) (Some "{}") world0))
     = {| bancaInicial := Fin 0; operacoes := [] |}
  /\ state (snd (carregarLocal (host := Exemplo.navegador) (Some "{}") world0))
     <> state0
  /\ state (snd (carregarLocal (host := Exemplo.navegador)
                               (Some Exemplo.textoComNull) world0))
     = {| bancaInicial := Fin 7; operacoes := [] |}.
Proof.
  vm_compute. repeat split. intros H. discriminate H.
Qed.

(** C7, as the code has it.  When nothing usable is stored (no entry, an
    empty text, a text that is not JSON, or the JSON text null) the loader
    returns without raising anything and without touching the state, so a
    page that loads then shows the defaults.  A text that parses to
    anything else is not replaced by the defaults either.  If its
    [bancaInicial] has a primitive form, the initial balance becomes
    [Number(bancaInicial) || 0], and the operations become the empty list
    when [operacoes] is not an array.  If it has none (an object with an
    own property named toString, or an array that holds one), [Number]
    throws inside the [try] and the state stays as it was. *)
Theorem carregarLocal_fallback {host : Host} :
  (forall (raw : option string) (w : World),
      semSnapshot raw -> carregarLocal raw w = (tt, w))
  /\ (forall raw : option string,
         semSnapshot raw -> state (snd (aoCarregar raw world0)) = state0)
  /\ (forall (s : string) (parsed b : value) (w : World),
         s <> "" -> JSON_parse s = Some parsed ->
         getProp parsed "bancaInicial" = Some b ->
         convertivel b = true ->
         bancaInicial (state (snd (carregarLocal (Some s) w)))
         = (if truthy (Number b) then Number b else Fin 0)
         /\ forall o, getProp parsed "operacoes" = Some o -> isArray o = false ->
                      operacoes (state (snd (carregarLocal (Some s) w))) = [])
  /\ (forall (s : string) (parsed b : value) (w : World),
         JSON_parse s = Some parsed ->
         getProp parsed "bancaInicial" = Some b ->
         convertivel b = false ->
         carregarLocal (Some s) w = (tt, w)).
Proof.
  assert (Hinert : forall raw w, semSnapshot raw -> carregarLocal raw w = (tt, w)).
  { intros raw w H. apply carregarLocal_sem_efeito.
    destruct H as [H | [H | (s & Hr & Hp)]]; auto.
    right; right. exists s. split; [exact Hr|].
    destruct Hp as [Hp | Hp]; [left; exact Hp|].
    right. exists VNull. split; [exact Hp | reflexivity]. }
  split; [exact Hinert|]. split; [|split].
  - intros raw H. unfold aoCarregar, bind. rewrite (Hinert raw world0 H).
    apply render_state.
  - intros s parsed b w Hs Hp Hb Hc.
    destruct (carregarLocal_lido s parsed b w Hs Hp Hb Hc)
      as (o & Ho & Hbanca & Hops).
    split; [exact Hbanca|].
    intros o' Ho' Harr. rewrite Ho in Ho'. injection Ho' as <-.
    destruct o; try exact Hops. discriminate Harr.
  - intros s parsed b w Hp Hb Hc.
    exact (carregarLocal_nao_converte s parsed b w Hp Hb Hc).
Qed.

Lemma carregarLocal_fallback_witness :
  carregarLocal (host := Exemplo.navegador) (Some "null") Exemplo.mundoPayout
  = (tt, Exemplo.mundoPayout)
  /\ state (snd (aoCarregar (host := Exemplo.navegador) None world0)) = state0
  /\ bancaInicial (state (snd (carregarLocal (host := Exemplo.navegador)
                                             (Some "{}") Exemplo.mundoPayout)))
     = Fin 0
  /\ carregarLocal (host := Exemplo2.navegadorObjeto)
                   (Some Exemplo2.textoBancaObjeto) Exemplo.mundoPayout
     = (tt, Exemplo.mundoPayout).
Proof.
  assert (Hs : "{}" <> "") by discriminate.
  destruct (carregarLocal_fallback (host := Exemplo.navegador))
    as (Hinert & Hload & Hconv & _).
  destruct (carregarLocal_fallback (host := Exemplo2.navegadorObjeto))
    as (_ & _ & _ & Hthrow).
  split; [|split; [|split]].
  - apply Hinert.
    right; right. exists "null". split; [reflexivity|]. right. reflexivity.
  - apply Hload. left. reflexivity.
  - exact (proj1 (Hconv "{}" (VObj []) VUndefined Exemplo.mundoPayout
                        Hs eq_refl eq_refl eq_refl)).
  - exact (Hthrow Exemplo2.textoBancaObjeto
                  (VObj [("bancaInicial", Exemplo2.semPrimitivo)])
                  Exemplo2.semPrimitivo Exemplo.mundoPayout
                  eq_refl eq_refl eq_refl).
Defined.

(** The stored text [null] parses and has no [bancaInicial], and the
    loader leaves the balance at 5000; [{"bancaInicial":true}] holds a
    value that is not a number, and the loader sets the balance to 1. *)
Lemma carregarLocal_null_or_true :
  let carregado txt :=
    bancaInicial (state (snd (carregarLocal (host := Exemplo.navegador)
                                            (Some txt) world0))) in
  @JSON_parse Exemplo.navegador "null" = Some VNull
  /\ carregado "null" = Fin 5000
  /\ ~ (carregado "null" =~ Fin 0)
  /\ @JSON_parse Exemplo.navegador Exemplo.textoTrue
     = Some (VObj [("bancaInicial", VBool true)])
  /\ carregado Exemplo.textoTrue = Fin 1
  /\ ~ (carregado Exemplo.textoTrue =~ Fin 0).
Proof.
  vm_compute. repeat split; intros H; discriminate H.
Qed.

(** C10, as the code has it.  When the stored text parses to a value
    other than null and its [bancaInicial] has a primitive form, the
    loader sets the initial balance to [Number(bancaInicial) || 0]: to 0
    when that number is NaN or 0, which is the case when the field is
    missing, null, false, NaN or 0, and to the number itself otherwise; it
    then sets the operations to the empty list whenever [operacoes] is not
    an array.  When [bancaInicial] has no primitive form (an object with
    an own property named toString, or an array that holds one), [Number]
    throws inside the [try] and the loader changes nothing. *)
Theorem carregarLocal_normalises {host : Host}
  (s : string) (parsed b : value) (w : World) :
  s <> "" -> JSON_parse s = Some parsed ->
  getProp parsed "bancaInicial" = Some b ->
  let w' := snd (carregarLocal (Some s) w) in
  (In b [VUndefined; VNull; VBool false; VNum NaN; VNum (Fin 0)] ->
   bancaInicial (state w') = Fin 0)
  /\ (forall fields, parsed = VObj fields -> lookup "bancaInicial" fields = None ->
      bancaInicial (state w') = Fin 0)
  /\ (convertivel b = true ->
      (truthy (Number b) = false -> bancaInicial (state w') = Fin 0)
      /\ (truthy (Number b) = true -> bancaInicial (state w') = Number b)
      /\ (forall o, getProp parsed "operacoes" = Some o -> isArray o = false ->
          operacoes (state w') = []))
  /\ (convertivel b = false -> carregarLocal (Some s) w = (tt, w)).
Proof.
  intros Hs Hp Hb w'. subst w'.
  assert (Hconv : convertivel b = true ->
            bancaInicial (state (snd (carregarLocal (Some s) w)))
            = (if truthy (Number b) then Number b else Fin 0)
            /\ forall o, getProp parsed "operacoes" = Some o -> isArray o = false ->
                 operacoes (state (snd (carregarLocal (Some s) w))) = []).
  { intros Hc.
    destruct (carregarLocal_lido s parsed b w Hs Hp Hb Hc)
      as (o & Ho & Hbanca & Hops).
    split; [exact Hbanca|].
    intros o' Ho' Harr. rewrite Ho in Ho'. injection Ho' as <-.
    destruct o; try exact Hops. discriminate Harr. }
  split; [|split; [|split]].
  - intros Hin. simpl in Hin.
    destruct Hin as [<- | [<- | [<- | [<- | [<- | []]]]]];
      rewrite (proj1 (Hconv eq_refl)); reflexivity.
  - intros fields -> Hl. simpl in Hb. rewrite Hl in Hb. injection Hb as <-.
    rewrite (proj1 (Hconv eq_refl)). reflexivity.
  - intros Hc. destruct (Hconv Hc) as (Hbanca & Hops). rewrite Hbanca.
    split; [intros ->; reflexivity|]. split; [intros ->; reflexivity|].
    exact Hops.
  - intros Hc. exact (carregarLocal_nao_converte s parsed b w Hp Hb Hc).
Qed.

Lemma carregarLocal_normalises_witness :
  bancaInicial (state (snd (carregarLocal (host := Exemplo.navegador)
                                          (Some "{}") world0))) = Fin 0
  /\ operacoes (state (snd (carregarLocal (host := Exemplo.navegador)
                                          (Some "{}") Exemplo.mundoPayout))) = []
  /\ carregarLocal (host := Exemplo2.navegadorObjeto)
                   (Some Exemplo2.textoBancaObjeto) Exemplo.mundoPayout
     = (tt, Exemplo.mundoPayout).
Proof.
  assert (Hs : "{}" <> "") by discriminate.
  assert (Ht : Exemplo2.textoBancaObjeto <> "") by discriminate.
  destruct (carregarLocal_normalises (host := Exemplo.navegador)
              "{}" (VObj []) VUndefined world0 Hs eq_refl eq_refl)
    as (Hzero & _).
  destruct (carregarLocal_normalises (host := Exemplo.navegador)
              "{}" (VObj []) VUndefined Exemplo.mundoPayout Hs eq_refl eq_refl)
    as (_ & _ & Hconv & _).
  destruct (carregarLocal_normalises (host := Exemplo2.navegadorObjeto)
              Exemplo2.textoBancaObjeto
              (VObj [("bancaInicial", Exemplo2.semPrimitivo)])
              Exemplo2.semPrimitivo Exemplo.mundoPayout Ht eq_refl eq_refl)
    as (_ & _ & _ & Hthrow).
  split; [|split].
  - apply Hzero. left. reflexivity.
  - destruct (Hconv eq_refl) as (_ & _ & Hops).
    apply (Hops VUndefined); reflexivity.
  - apply Hthrow. reflexivity.
Defined.

(** ** The initial balance of script/sozinho.js *)

(** With no entry in the storage [Number(null)] is 0, which is finite, so
    the balance starts at 0; the fallback of 100 is taken only for a
    stored text that does not convert to a finite number. *)
Lemma bancaAtualInicial_casos {host : Host} :
  Sozinho.bancaAtualInicial None = Fin 0
  /\ (forall s, isFinite (StringToNumber s) = false ->
                Sozinho.bancaAtualInicial (Some s) = Fin 100)
  /\ (forall s, isFinite (StringToNumber s) = true ->
                Sozinho.bancaAtualInicial (Some s) = StringToNumber s).
Proof.
  unfold Sozinho.bancaAtualInicial. split; [reflexivity|].
  split; intros s Hs; rewrite Hs; reflexivity.
Qed.

(** * Further properties of the scripts *)

(** ** Arithmetic of the number model *)

Lemma eqv_sym a b : a =~ b -> b =~ a.
Proof. destruct a, b; simpl; auto. intros H. symmetry. exact H. Qed.

Lemma eqv_trans a b c : a =~ b -> b =~ c -> a =~ c.
Proof.
  destruct a, b, c; simpl; auto; try contradiction.
  intros H1 H2. rewrite H1. exact H2.
Qed.

Lemma add_eqv a a' b b' : a =~ a' -> b =~ b' -> (a + b)%js =~ (a' + b')%js.
Proof.
  destruct a, a', b, b'; simpl; auto; try contradiction.
  intros H1 H2. rewrite H1, H2. reflexivity.
Qed.

Lemma add_zero_r a : (a + Fin 0)%js =~ a.
Proof. destruct a; simpl; auto. apply Qplus_0_r. Qed.

Lemma add_zero_l a : (Fin 0 + a)%js =~ a.
Proof. destruct a; simpl; auto. apply Qplus_0_l. Qed.

Lemma add_NaN_r a : (a + NaN)%js = NaN.
Proof. destruct a; reflexivity. Qed.

Lemma fold_add_NaN l : fold_left add l NaN = NaN.
Proof. induction l as [|x l IH]; simpl; auto. Qed.

Lemma soma_snoc l x : soma (l ++ [x]) = (soma l + x)%js.
Proof. unfold soma. rewrite fold_left_app. reflexivity. Qed.

Lemma soma_com_NaN l1 l2 : soma (l1 ++ NaN :: l2) = NaN.
Proof.
  unfold soma. rewrite fold_left_app. cbn [fold_left].
  rewrite add_NaN_r. apply fold_add_NaN.
Qed.

(** ** The snapshot of an empty log *)

(** X1.  With no operation in the log the balance and the baseline are
    the initial balance, every count, sum, rate and streak is 0, there is
    no streak type and no last operation, and the clock is read exactly
    once. *)
Theorem calcularKPIs_empty_log {host : Host} (w : World) :
  operacoes (state w) = [] ->
  let k := fst (calcularKPIs w) in
  Principal.bancaAtual k =~ bancaInicial (state w)
  /\ baselineMes k =~ bancaInicial (state w)
  /\ variacaoValor k = Fin 0 /\ lucroMes k = Fin 0
  /\ variacaoPct k =~ Fin 0
  /\ winsMes k = 0 /\ lossesMes k = 0
  /\ taxaAcerto k = Fin 0 /\ mediaMes k = Fin 0
  /\ streakAtual k = 0 /\ streakTipo k = None /\ streakMax k = 0
  /\ ultima k = None
  /\ leituras (snd (calcularKPIs w)) = S (leituras w).
Proof.
  intros Hnil k. subst k. rewrite calcularKPIs_run, opsDoMes_run.
  rewrite Hnil. cbn [fst snd filterM ret]. unfold montarKPIs. rewrite Hnil.
  cbn -[add div mul gtb].
  repeat split; try apply add_zero_r.
  destruct (bancaInicial (state w)) as [| |q|]; cbn; try reflexivity.
  destruct (Qle_bool (q + 0) 0) eqn:Hq; cbn; [reflexivity|].
  unfold sgn. destruct (Qcompare (q + 0) 0) eqn:Hc; cbn.
  - apply Qeq_alt in Hc.
    assert (Hle : Qle_bool (q + 0) 0 = true)
      by (apply Qle_bool_iff; rewrite Hc; apply Qle_refl).
    congruence.
  - unfold Qdiv. rewrite !Qmult_0_l. reflexivity.
  - unfold Qdiv. rewrite !Qmult_0_l. reflexivity.
Qed.

Lemma calcularKPIs_empty_log_witness :
  let k := fst (calcularKPIs (host := Exemplo.navegador) world0) in
  Principal.bancaAtual k =~ Fin 5000 /\ ultima k = None /\ streakTipo k = None.
Proof.
  pose proof (calcularKPIs_empty_log (host := Exemplo.navegador) world0 eq_refl)
    as (Hb & _ & _ & _ & _ & _ & _ & _ & _ & _ & Ht & _ & Hu & _).
  split; [exact Hb|]. split; [exact Hu | exact Ht].
Defined.

(** ** A record without amount poisons the balance *)

(** X2.  [calcularKPIs] does not look at what an amount is: as soon as
    one operation of the log has the amount NaN (what the loader stores
    for a record without a usable amount), the balance is NaN. *)
Theorem bancaAtual_NaN_amount {host : Host} (w : World) (o : Operacao) :
  In o (operacoes (state w)) -> amount o = NaN ->
  Principal.bancaAtual (fst (calcularKPIs w)) = NaN.
Proof.
  intros Hin Ha. rewrite bancaAtual_calc.
  apply in_split in Hin. destruct Hin as (l1 & l2 & ->).
  rewrite map_app. cbn [map].
  assert (Hl : lucro o = NaN).
  { unfold lucro. rewrite Ha. destruct (String.eqb (result o) "WIN"); reflexivity. }
  rewrite Hl, soma_com_NaN. apply add_NaN_r.
Qed.

Lemma bancaAtual_NaN_amount_witness :
  Principal.bancaAtual
    (fst (calcularKPIs (host := Exemplo.navegador) Exemplo2.mundoSemValor)) = NaN.
Proof.
  apply (bancaAtual_NaN_amount (host := Exemplo.navegador) Exemplo2.mundoSemValor
           {| createdAt := Some Exemplo.t0; amount := NaN;
              result := "LOSS"; outros := [] |}).
  - right. left. reflexivity.
  - reflexivity.
Defined.

(** ** Appending an operation *)

Section Acrescimo.
Context {host : Host}.

Lemma lucro_novaOperacao a w :
  lucro (novaOperacao a w)
  = if strictEqStr (nResult a) "WIN"
    then Number (nAmount a) else (- Number (nAmount a))%js.
Proof.
  unfold lucro, novaOperacao, normalizar. cbn [result amount].
  destruct (strictEqStr (nResult a) "WIN"); reflexivity.
Qed.

Lemma nth_error_last {A} (l : list A) x :
  nth_error (l ++ [x]) (length (l ++ [x]) - 1) = Some x.
Proof.
  rewrite length_app. simpl length.
  replace (length l + 1 - 1) with (length l) by lia.
  rewrite nth_error_app2 by lia. rewrite Nat.sub_diag. reflexivity.
Qed.

Lemma trailingRun_snoc l o :
  trailingRun (l ++ [o])
  = match lastResult l with
    | Some t => if String.eqb t (result o) then S (trailingRun l) else 1
    | None => 1
    end.
Proof.
  unfold trailingRun, lastResult. rewrite rev_unit.
  destruct (rev l) as [|o' r]; [reflexivity|]. cbn [runLength].
  rewrite String.eqb_sym.
  destruct (String.eqb_spec (result o) (result o')) as [-> | _]; reflexivity.
Qed.

Lemma lastResult_snoc l o : lastResult (l ++ [o]) = Some (result o).
Proof. unfold lastResult. rewrite rev_unit. reflexivity. Qed.

End Acrescimo.

(** X3.  After [adicionarOperacao] the log is one operation longer, the
    initial balance is the same and the last operation is the new one,
    dated with the current clock reading.  The profit accumulated over the
    log, to which the balance adds the initial balance, is the profit
    accumulated before plus the converted amount on the string 'WIN' and
    plus its negation on any other result: the new term is added last, as
    the [reduce] does. *)
Theorem adicionarOperacao_balance {host : Host} (a : NovaOperacao) (w : World) :
  let w' := snd (adicionarOperacao a w) in
  let k := fst (calcularKPIs w) in
  let k' := fst (calcularKPIs w') in
  let acumulado := soma (map lucro (operacoes (state w))) in
  length (operacoes (state w')) = S (length (operacoes (state w)))
  /\ bancaInicial (state w') = bancaInicial (state w)
  /\ ultima k' = Some (novaOperacao a w)
  /\ createdAt (novaOperacao a w) = Some (clock (leituras w))
  /\ Principal.bancaAtual k = (bancaInicial (state w) + acumulado)%js
  /\ Principal.bancaAtual k'
     = (bancaInicial (state w)
        + (acumulado
           + (if strictEqStr (nResult a) "WIN"
              then Number (nAmount a) else - Number (nAmount a))))%js.
Proof.
  intros w' k k' acumulado. subst w' k k' acumulado.
  rewrite !bancaAtual_calc, adicionarOperacao_state. cbn [operacoes bancaInicial].
  split; [rewrite length_app; simpl; lia|].
  split; [reflexivity|].
  split.
  - rewrite calcularKPIs_run. cbn [fst]. unfold montarKPIs. cbn [ultima].
    rewrite adicionarOperacao_state. cbn [operacoes]. apply nth_error_last.
  - split; [reflexivity|]. split; [reflexivity|].
    rewrite map_app. cbn [map]. rewrite soma_snoc, lucro_novaOperacao.
    reflexivity.
Qed.

(** X4.  On a ledger whose results are WIN or LOSS, appending an
    operation extends the current streak by one when its result is the
    type of that streak and restarts it at 1 otherwise; the type becomes
    the new result; the longest WIN streak becomes the larger of the old
    one and the new current streak on a WIN, and is unchanged on a LOSS. *)
Theorem adicionarOperacao_streaks {host : Host} (a : NovaOperacao) (w : World) :
  estadoValido (state w) ->
  let k := fst (calcularKPIs w) in
  let k' := fst (calcularKPIs (snd (adicionarOperacao a w))) in
  streakTipo k' = Some (normalizar (nResult a))
  /\ streakAtual k'
     = match streakTipo k with
       | Some t => if String.eqb t (normalizar (nResult a))
                   then S (streakAtual k) else 1
       | None => 1
       end
  /\ streakMax k'
     = if String.eqb (normalizar (nResult a)) "WIN"
       then Nat.max (streakMax k) (streakAtual k')
       else streakMax k.
Proof.
  intros Hv k k'. subst k k'.
  assert (Hv' : estadoValido (state (snd (adicionarOperacao a w)))).
  { rewrite adicionarOperacao_state. unfold estadoValido in *. cbn [operacoes].
    apply Forall_app. split; [exact Hv|].
    constructor; [apply normalizar_valido | constructor]. }
  rewrite !calcularKPIs_run. cbn [fst]. unfold montarKPIs.
  cbn [streakAtual streakTipo streakMax].
  rewrite (streakLoop_spec _ (estadoValido_last _ Hv)).
  rewrite (streakLoop_spec _ (estadoValido_last _ Hv')).
  rewrite adicionarOperacao_state. cbn [operacoes fst snd].
  rewrite trailingRun_snoc, lastResult_snoc. cbn [result novaOperacao].
  split; [reflexivity|]. split; [reflexivity|].
  rewrite fold_left_app. cbn [fold_left].
  destruct (passoStreakMax_trailing (operacoes (state w))) as (Hs & _).
  unfold passoStreakMax at 1. cbn [result novaOperacao]. rewrite Hs.
  destruct (String.eqb (normalizar (nResult a)) "WIN") eqn:Hwin; cbn [fst];
    [|reflexivity].
  apply String.eqb_eq in Hwin. rewrite Hwin.
  f_equal. unfold lastResult, trailingRun.
  destruct (rev (operacoes (state w))) as [|o' r]; [reflexivity|].
  cbn [runLength].
  rewrite String.eqb_sym.
  destruct (String.eqb_spec "WIN" (result o')) as [<- | _]; reflexivity.
Qed.

Lemma adicionarOperacao_streaks_witness :
  let a := {| nAmount := VNum (Fin 5); nResult := VStr "WIN";
              nStrategy := VUndefined; nDescription := VUndefined |} in
  let k' := fst (calcularKPIs (host := Exemplo.navegador)
                   (snd (adicionarOperacao (host := Exemplo.navegador) a
                                           Exemplo.mundoSequencia))) in
  streakTipo k' = Some "WIN" /\ streakAtual k' = 2 /\ streakMax k' = 2.
Proof.
  intros a k'.
  assert (Hv : estadoValido (state Exemplo.mundoSequencia)).
  { unfold estadoValido, resultadoValido. simpl.
    repeat (apply Forall_cons; [simpl; auto|]). apply Forall_nil. }
  destruct (adicionarOperacao_streaks (host := Exemplo.navegador) a
              Exemplo.mundoSequencia Hv) as (Ht & Hs & Hm).
  subst k'. cbv zeta in Ht, Hs, Hm.
  split; [exact Ht|]. split; [rewrite Hs; reflexivity|].
  rewrite Hm, Hs. reflexivity.
Defined.

(** ** Which operations belong to the month *)

Section Mes.
Context {host : Host}.

Lemma filterM_noMes_membro s l : forall w o,
  In o (fst (filterM (noMes (Some s)) l w)) ->
  In o l
  /\ exists t, createdAt o = Some t /\ (s <= t)%Z
     /\ exists n, leituras w <= n < leituras w + length l /\ (t <= clock n)%Z.
Proof.
  induction l as [|x l IH]; intros w o Hin; [contradiction|].
  rewrite filterM_cons in Hin.
  pose proof (noMes_frame (Some s) x w) as (_ & _ & Hl).
  assert (Hkeep : fst (noMes (Some s) x w) = true ->
                  exists t, createdAt x = Some t /\ (s <= t)%Z
                            /\ (t <= clock (leituras w))%Z).
  { unfold noMes. destruct (createdAt x) as [t|]; cbn; [|discriminate].
    destruct (s <=? t)%Z eqn:Hs; cbn; [|discriminate].
    intros Ht. exists t. repeat split; [apply Z.leb_le, Hs | apply Z.leb_le, Ht]. }
  destruct (noMes (Some s) x w) as [keep w1]. cbn [fst snd] in *.
  specialize (IH w1 o).
  destruct (filterM (noMes (Some s)) l w1) as [tl w2]. cbn [fst] in *.
  assert (Htl : In o tl ->
                In o (x :: l)
                /\ exists t, createdAt o = Some t /\ (s <= t)%Z
                   /\ exists n, leituras w <= n < leituras w + length (x :: l)
                                /\ (t <= clock n)%Z).
  { intros H. destruct (IH H) as (Hi & t & Hc & Hs & n & Hn & Ht).
    split; [right; exact Hi|]. exists t. repeat split; auto.
    exists n. split; [simpl; lia | exact Ht]. }
  destruct keep; [|exact (Htl Hin)].
  destruct Hin as [<- | Hin]; [|exact (Htl Hin)].
  destruct (Hkeep eq_refl) as (t & Hc & Hs & Ht).
  split; [left; reflexivity|]. exists t. repeat split; auto.
  exists (leituras w). split; [simpl; lia | exact Ht].
Qed.

(** With every operation dated no later than any clock reading, the month
    filter keeps exactly the operations dated from the start of the month
    on. *)
Lemma filterM_noMes_datadas s l : forall w,
  Forall (fun o => exists t, createdAt o = Some t /\ forall n, (t <= clock n)%Z) l ->
  fst (filterM (noMes (Some s)) l w)
  = filter (fun o => negb (date_ltb (createdAt o) (Some s))) l.
Proof.
  induction l as [|x l IH]; intros w Hd; [reflexivity|].
  inversion Hd as [|? ? (t & Hc & Ht) Hd']; subst.
  rewrite filterM_cons. cbn [filter].
  unfold noMes at 1. rewrite Hc. cbn [date_geb date_leb date_ltb].
  rewrite (Z.ltb_antisym s t), negb_involutive.
  destruct (s <=? t)%Z; cbn.
  - specialize (IH (tique w) Hd').
    destruct (filterM (noMes (Some s)) l (tique w)) as [tl w2]. cbn in *.
    assert (Hle : (t <=? clock (leituras w))%Z = true) by (apply Z.leb_le, Ht).
    rewrite Hle, IH. reflexivity.
  - specialize (IH w Hd').
    destruct (filterM (noMes (Some s)) l w) as [tl w2]. cbn in *.
    rewrite IH. reflexivity.
Qed.

End Mes.

(** X5.  An operation that [calcularKPIs] counts in the month is one of
    the log, has a valid date not before the start of the month, and that
    date is not after a clock reading made during the call.  An operation
    whose date is invalid is never in the month and never before it. *)
Theorem opsDoMes_membership {host : Host} (w : World) :
  let inicio := startOfMonth (clock (leituras w)) in
  (forall o, In o (fst (opsDoMes w)) ->
     In o (operacoes (state w))
     /\ exists t, createdAt o = Some t /\ (inicio <= t)%Z
        /\ exists n, leituras w < n <= leituras w + length (operacoes (state w))
                     /\ (t <= clock n)%Z)
  /\ (forall o, createdAt o = None ->
        ~ In o (fst (opsDoMes w))
        /\ date_ltb (createdAt o) (Some inicio) = false).
Proof.
  intros inicio. split.
  - intros o Hin. rewrite opsDoMes_run in Hin.
    destruct (filterM_noMes_membro _ _ _ _ Hin) as (Hi & t & Hc & Hs & n & Hn & Ht).
    split; [exact Hi|]. exists t. repeat split; auto.
    exists n. cbn [leituras tique] in Hn. split; [lia | exact Ht].
  - intros o Hnone. split.
    + intros Hin. rewrite opsDoMes_run in Hin.
      destruct (filterM_noMes_membro _ _ _ _ Hin) as (_ & t & Hc & _).
      congruence.
    + rewrite Hnone. reflexivity.
Qed.

Lemma opsDoMes_membership_witness :
  let o := {| createdAt := None; amount := Fin 10; result := "WIN"; outros := [] |} in
  let k := fst (calcularKPIs (host := Exemplo.navegador) Exemplo2.mundoDataInvalida) in
  In o (operacoes (state Exemplo2.mundoDataInvalida))
  /\ ~ In o (fst (opsDoMes (host := Exemplo.navegador) Exemplo2.mundoDataInvalida))
  /\ Principal.bancaAtual k = Fin 5010
  /\ baselineMes k = Fin 5000
  /\ lucroMes k = Fin 0.
Proof.
  intros o k.
  pose proof (proj2 (opsDoMes_membership (host := Exemplo.navegador)
                       Exemplo2.mundoDataInvalida) o eq_refl) as (Hnot & _).
  split; [left; reflexivity|]. split; [exact Hnot|].
  repeat split; reflexivity.
Defined.

(** X6.  When every operation has a valid date that no clock reading
    precedes, the month and what came before it split the log: the
    operations of the month are exactly those not dated before the start
    of the month, every operation of the log is in one of the two, and the
    two sizes add up to the size of the log.  The baseline sums the profit
    of the earlier part onto the initial balance, the profit of the month
    sums the rest. *)
Theorem opsDoMes_partition {host : Host} (w : World) :
  Forall (fun o => exists t, createdAt o = Some t /\ forall n, (t <= clock n)%Z)
         (operacoes (state w)) ->
  let k := fst (calcularKPIs w) in
  let antesDoMes o :=
    date_ltb (createdAt o) (Some (startOfMonth (clock (leituras w)))) in
  let antes := filter antesDoMes (operacoes (state w)) in
  fst (opsDoMes w) = filter (fun o => negb (antesDoMes o)) (operacoes (state w))
  /\ (forall o, In o (operacoes (state w)) ->
                In o antes \/ In o (fst (opsDoMes w)))
  /\ length antes + length (fst (opsDoMes w)) = length (operacoes (state w))
  /\ baselineMes k = (bancaInicial (state w) + soma (map lucro antes))%js
  /\ lucroMes k = soma (map lucro (fst (opsDoMes w))).
Proof.
  intros Hd k antesDoMes antes. subst k antes.
  assert (Hmes : fst (opsDoMes w)
                 = filter (fun o => negb (antesDoMes o)) (operacoes (state w))).
  { rewrite opsDoMes_run. exact (filterM_noMes_datadas _ _ (tique w) Hd). }
  split; [exact Hmes|]. split; [|split; [|split]].
  - intros o Hin. rewrite Hmes.
    destruct (antesDoMes o) eqn:Ho.
    + left. apply filter_In. split; assumption.
    + right. apply filter_In. split; [assumption | rewrite Ho; reflexivity].
  - rewrite Hmes. clear Hd Hmes.
    induction (operacoes (state w)) as [|x l IH]; [reflexivity|].
    cbn [filter]. destruct (antesDoMes x); cbn [negb length]; lia.
  - rewrite calcularKPIs_run. cbn [fst]. unfold montarKPIs. cbn [baselineMes].
    rewrite fold_somaLucro. reflexivity.
  - rewrite calcularKPIs_run. cbn [fst]. unfold montarKPIs. cbn [lucroMes].
    rewrite fold_somaLucro. reflexivity.
Qed.

Lemma opsDoMes_partition_witness :
  let h := Exemplo.navegador in
  fst (opsDoMes (host := h) Exemplo.mundoSequencia)
  = operacoes (state Exemplo.mundoSequencia)
  /\ baselineMes (fst (calcularKPIs (host := h) Exemplo.mundoSequencia)) = Fin 5000.
Proof.
  assert (Hd : Forall (fun o => exists t, createdAt o = Some t
                                          /\ forall n, (t <= @clock Exemplo.navegador n)%Z)
                      (operacoes (state Exemplo.mundoSequencia))).
  { simpl. repeat (apply Forall_cons;
                   [exists Exemplo.t0; split; [reflexivity | intros n; apply Z.le_refl]|]).
    apply Forall_nil. }
  destruct (opsDoMes_partition (host := Exemplo.navegador) Exemplo.mundoSequencia Hd)
    as (Hmes & _ & _ & Hbase & _).
  split; [rewrite Hmes; reflexivity | rewrite Hbase; reflexivity].
Defined.

(** ** What the loader makes of the stored operations *)

Section CargaOperacoes.
Context {host : Host}.
Import Gravacao.

Lemma getProp_temCampos o k :
  temCampos o = true -> getProp o k = Some (campo o k).
Proof.
  unfold campo. destruct o; cbn; try discriminate; try reflexivity.
  intros _. destruct (lookup k fields); reflexivity.
Qed.

Lemma reconstruir_total o w :
  legivel o = true ->
  exists op, fst (reconstruir o w) = Done op /\ Gravacao.reconstruidaDe o op.
Proof.
  unfold legivel. intros Hl.
  apply andb_prop in Hl. destruct Hl as [Hl Ha].
  apply andb_prop in Hl. destruct Hl as [Ht Hd].
  unfold reconstruir.
  rewrite !(getProp_temCampos o _ Ht). run_m.
  destruct (truthyV (campo o "createdAt")) eqn:Hc; cbn;
    rewrite ?Hd, Ha; cbn;
    eexists; (split; [reflexivity|]); unfold reconstruidaDe; cbn;
    rewrite Hc; repeat split; try discriminate; eauto.
Qed.

Lemma reconstruir_throws o w :
  legivel o = false -> fst (reconstruir o w) = Thrown.
Proof.
  unfold legivel. intros Hl.
  destruct (temCampos o) eqn:Ht.
  - unfold reconstruir. rewrite !(getProp_temCampos o _ Ht). run_m.
    cbn [andb] in Hl.
    destruct (truthyV (campo o "createdAt")); cbn.
    + destruct (convertivel (campo o "createdAt")); cbn; [|reflexivity].
      cbn [andb] in Hl. rewrite Hl. reflexivity.
    + cbn [andb] in Hl. rewrite Hl. reflexivity.
  - destruct o; cbn in Ht; try discriminate; reflexivity.
Qed.

Lemma mapE_reconstruir_total l : forall w,
  forallb legivel l = true ->
  exists ops, fst (mapE reconstruir l w) = Done ops
              /\ Forall2 Gravacao.reconstruidaDe l ops.
Proof.
  induction l as [|o l IH]; intros w Hall.
  - exists []. split; [reflexivity | constructor].
  - cbn [forallb] in Hall. apply andb_prop in Hall. destruct Hall as [Ho Hl].
    rewrite mapE_cons.
    destruct (reconstruir_total o w Ho) as (op & Hop & Hr).
    destruct (reconstruir o w) as [[op'|] w1]; cbn in Hop; [|discriminate].
    injection Hop as ->.
    destruct (IH w1 Hl) as (ops & Hops & Hf).
    destruct (mapE reconstruir l w1) as [[ops'|] w2]; cbn in Hops; [|discriminate].
    injection Hops as ->.
    exists (op :: ops). split; [reflexivity | constructor; assumption].
Qed.

Lemma mapE_reconstruir_throws l : forall w,
  forallb legivel l = false -> fst (mapE reconstruir l w) = Thrown.
Proof.
  induction l as [|o l IH]; intros w Hall; [discriminate|].
  cbn [forallb] in Hall. rewrite mapE_cons.
  destruct (legivel o) eqn:Ho.
  - destruct (reconstruir_total o w Ho) as (op & Hop & _).
    destruct (reconstruir o w) as [[op'|] w1]; cbn in Hop; [|discriminate].
    specialize (IH w1 Hall).
    destruct (mapE reconstruir l w1) as [[ops'|] w2]; cbn in IH;
      [discriminate | reflexivity].
  - pose proof (reconstruir_throws o w Ho) as Ht.
    destruct (reconstruir o w) as [[op'|] w1]; cbn in Ht;
      [discriminate | reflexivity].
Qed.

End CargaOperacoes.

(** X7.  When the stored text parses to a value with a list under
    [operacoes], the loader first converts [bancaInicial]: if that throws
    (the value has no primitive form) nothing changes at all; otherwise
    the initial balance becomes [Number(bancaInicial) || 0].  Then, if
    every element of the list can be rebuilt (it is not null, and neither
    its truthy [createdAt] nor its [amount] lacks a primitive form), the
    whole log is replaced by one operation per element, in order: result
    normalised, amount [Number(o.amount)] unchecked, the other properties
    copied, the date taken from a truthy [createdAt] and from the clock
    otherwise.  If some element cannot be rebuilt, the mapping throws and
    the log stays as it was, under the balance already replaced. *)
Theorem carregarLocal_all_or_nothing {host : Host}
  (s : string) (parsed b : value) (l : list value) (w : World) :
  s <> "" -> JSON_parse s = Some parsed ->
  getProp parsed "bancaInicial" = Some b ->
  getProp parsed "operacoes" = Some (VArr l) ->
  let st' := state (snd (carregarLocal (Some s) w)) in
  (convertivel b = false -> carregarLocal (Some s) w = (tt, w))
  /\ (convertivel b = true ->
      bancaInicial st' = (if truthy (Number b) then Number b else Fin 0)
      /\ (forallb Gravacao.legivel l = true ->
          length (operacoes st') = length l
          /\ Forall2 Gravacao.reconstruidaDe l (operacoes st'))
      /\ (forallb Gravacao.legivel l = false ->
          operacoes st' = operacoes (state w))).
Proof.
  intros Hs Hp Hb Ho st'. subst st'.
  split; [intros Hc; exact (carregarLocal_nao_converte s parsed b w Hp Hb Hc)|].
  intros Hc.
  destruct (carregarLocal_lido s parsed b w Hs Hp Hb Hc)
    as (o & Ho' & Hbanca & Hops).
  rewrite Ho in Ho'. injection Ho' as <-.
  split; [exact Hbanca|]. split.
  - intros Hall.
    destruct (mapE_reconstruir_total l (comBanca b w) Hall) as (ops & Hd & Hf).
    rewrite Hd in Hops. rewrite Hops.
    split; [symmetry; eapply Forall2_length; exact Hf | exact Hf].
  - intros Hall.
    rewrite (mapE_reconstruir_throws l (comBanca b w) Hall) in Hops. exact Hops.
Qed.

Lemma carregarLocal_all_or_nothing_witness :
  let carregado h txt :=
    state (snd (carregarLocal (host := h) (Some txt) Exemplo.mundoPayout)) in
  (bancaInicial (carregado Exemplo.navegador Exemplo.textoComNull) = Fin 7
   /\ operacoes (carregado Exemplo.navegador Exemplo.textoComNull)
      = operacoes (state Exemplo.mundoPayout))
  /\ (bancaInicial (carregado Exemplo2.navegadorObjeto Exemplo2.textoValorObjeto)
      = Fin 7
      /\ operacoes (carregado Exemplo2.navegadorObjeto Exemplo2.textoValorObjeto)
         = operacoes (state Exemplo.mundoPayout))
  /\ carregado Exemplo2.navegadorObjeto Exemplo2.textoBancaObjeto
     = state Exemplo.mundoPayout.
Proof.
  intros carregado. subst carregado. cbv beta.
  assert (Hs : Exemplo.textoComNull <> "") by discriminate.
  assert (Hv : Exemplo2.textoValorObjeto <> "") by discriminate.
  destruct (carregarLocal_all_or_nothing (host := Exemplo.navegador)
              Exemplo.textoComNull
              (VObj [("bancaInicial", VNum (Fin 7)); ("operacoes", VArr [VNull])])
              (VNum (Fin 7)) [VNull] Exemplo.mundoPayout
              Hs eq_refl eq_refl eq_refl) as (_ & Hnull).
  destruct (carregarLocal_all_or_nothing (host := Exemplo2.navegadorObjeto)
              Exemplo2.textoValorObjeto
              (VObj [("bancaInicial", VNum (Fin 7));
                     ("operacoes", VArr [VObj [("amount", Exemplo2.semPrimitivo)]])])
              (VNum (Fin 7)) [VObj [("amount", Exemplo2.semPrimitivo)]]
              Exemplo.mundoPayout
              Hv eq_refl eq_refl eq_refl) as (_ & Hobj).
  destruct (Hnull eq_refl) as (Hb1 & _ & Hk1).
  destruct (Hobj eq_refl) as (Hb2 & _ & Hk2).
  split; [split; [exact Hb1 | exact (Hk1 eq_refl)]|].
  split; [split; [exact Hb2 | exact (Hk2 eq_refl)]|].
  reflexivity.
Defined.

(** ** Saving and loading again *)

Section IdaEVolta.
Context {host : Host}.
Import Gravacao.
Variable iso : Z -> string.

Lemma camposJSON_cons k x fs :
  camposJSON ((k, x) :: fs)
  = match x with
    | VUndefined => camposJSON fs
    | _ => (k, viaJSON x) :: camposJSON fs
    end.
Proof. destruct x; reflexivity. Qed.

Lemma viaJSON_obj fs : viaJSON (VObj fs) = VObj (camposJSON fs).
Proof. reflexivity. Qed.

Lemma camposJSON_estavel fs :
  Forall (fun kv => chaveFixa (fst kv) = false
                    /\ snd kv <> VUndefined
                    /\ viaJSON (snd kv) = snd kv) fs ->
  camposJSON fs = fs.
Proof.
  induction 1 as [|[k x] fs (_ & Hu & Hv) _ IH]; [reflexivity|].
  rewrite camposJSON_cons, IH. cbn in Hu, Hv.
  destruct x; try congruence.
Qed.

Lemma filter_sem_chaves fs :
  Forall (fun kv : string * value =>
            chaveFixa (fst kv) = false
            /\ snd kv <> VUndefined
            /\ viaJSON (snd kv) = snd kv) fs ->
  filter (fun kv => negb (String.eqb (fst kv) "createdAt"
                          || String.eqb (fst kv) "amount"
                          || String.eqb (fst kv) "result")) fs = fs.
Proof.
  induction 1 as [|kv fs (Hk & _) _ IH]; [reflexivity|].
  cbn [filter]. unfold chaveFixa in Hk. rewrite Hk. cbn [negb]. rewrite IH.
  reflexivity.
Qed.

Lemma Number_viaJSON n : Number (viaJSON (VNum n)) = guardado n.
Proof. unfold guardado. cbn. destruct (isFinite n); reflexivity. Qed.

Lemma convertivel_viaJSON_num n : convertivel (viaJSON (VNum n)) = true.
Proof. cbn. destruct (isFinite n); reflexivity. Qed.

(** The loader rebuilds a saved operation as it was, up to its amount,
    without reading the clock. *)
Lemma reconstruir_serialOp o v w :
  serialOp iso o = Some v -> opLimpa iso o ->
  reconstruir (viaJSON v) w = (Done (opGuardada o), w).
Proof.
  intros Hser ((t & Hc & Hne & Hparse) & Hres & Hout).
  unfold serialOp in Hser. rewrite Hc in Hser. injection Hser as <-.
  rewrite viaJSON_obj, !camposJSON_cons, (camposJSON_estavel _ Hout).
  unfold reconstruir, spread. cbn [getProp lookup ownProps String.eqb Ascii.eqb Bool.eqb].
  cbn [filter fst negb orb String.eqb Ascii.eqb Bool.eqb].
  rewrite (filter_sem_chaves _ Hout).
  run_m. cbn [viaJSON truthyV DateOf convertivel].
  apply String.eqb_neq in Hne. rewrite Hne. cbn [negb].
  rewrite Hparse.
  change (if isFinite (amount o) then VNum (amount o) else VNull)
    with (viaJSON (VNum (amount o))).
  rewrite convertivel_viaJSON_num, Number_viaJSON.
  assert (Hn : normalizar (VStr (result o)) = result o).
  { unfold normalizar. cbn. destruct Hres as [-> | ->]; reflexivity. }
  rewrite Hn. unfold opGuardada. rewrite Hc. reflexivity.
Qed.

Lemma mapE_serialOps ops : forall vs w,
  serialOps iso ops = Some vs -> Forall (opLimpa iso) ops ->
  mapE reconstruir (map viaJSON vs) w = (Done (map opGuardada ops), w).
Proof.
  induction ops as [|o ops IH]; intros vs w Hser Hl.
  - injection Hser as <-. reflexivity.
  - cbn [serialOps] in Hser.
    destruct (serialOp iso o) as [v|] eqn:Hv; [|discriminate].
    destruct (serialOps iso ops) as [vs'|] eqn:Hvs; [|discriminate].
    injection Hser as <-. inversion Hl as [|? ? Ho Hl']; subst.
    cbn [map]. rewrite mapE_cons, (reconstruir_serialOp o v w Hv Ho).
    rewrite (IH vs' w eq_refl Hl'). reflexivity.
Qed.

Lemma guardado_finito n : isFinite n = true -> guardado n = n.
Proof. unfold guardado. intros ->. reflexivity. Qed.

Lemma ou_zero_guardado n :
  (if truthy (guardado n) then guardado n else Fin 0) =~ guardado n.
Proof.
  unfold guardado. destruct n as [| |q|]; cbn; try reflexivity.
  destruct (Qeq_bool q 0) eqn:Hq; cbn; [|reflexivity].
  apply Qeq_bool_iff in Hq. symmetry. exact Hq.
Qed.

End IdaEVolta.

(** X8.  Loading what [salvarLocal] stored gives the ledger back.  If the
    stored text parses to what JSON keeps of the object [salvarLocal]
    built, and every operation has a date whose ISO text [Date.parse]
    reads back, a result WIN or LOSS and other properties that JSON keeps,
    then the loader restores the operations in order and the initial
    balance, except that a number that is not finite (NaN or an infinity)
    comes back as 0.  With finite numbers throughout the ledger is
    restored exactly. *)
Theorem salvar_carregar_roundtrip {host : Host} (iso : Z -> string)
  (st : State) (v : value) (txt : string) (w : World) :
  Gravacao.serial iso st = Some v ->
  txt <> "" -> JSON_parse txt = Some (Gravacao.viaJSON v) ->
  Forall (Gravacao.opLimpa iso) (operacoes st) ->
  let st' := state (snd (carregarLocal (Some txt) w)) in
  bancaInicial st' =~ Gravacao.guardado (bancaInicial st)
  /\ operacoes st' = map Gravacao.opGuardada (operacoes st)
  /\ (isFinite (bancaInicial st) = true ->
      Forall (fun o => isFinite (amount o) = true) (operacoes st) ->
      bancaInicial st' =~ bancaInicial st /\ operacoes st' = operacoes st).
Proof.
  intros Hser Htxt Hparse Hl st'. subst st'.
  unfold Gravacao.serial in Hser.
  destruct (Gravacao.serialOps iso (operacoes st)) as [vs|] eqn:Hvs; [|discriminate].
  injection Hser as <-.
  rewrite viaJSON_obj, !camposJSON_cons in Hparse.
  change (Gravacao.camposJSON []) with (@nil (string * value)) in Hparse.
  cbn [Gravacao.viaJSON] in Hparse.
  set (b' := if isFinite (bancaInicial st) then VNum (bancaInicial st) else VNull) in Hparse.
  assert (Hb : getProp (VObj [("bancaInicial", b');
                              ("operacoes", VArr (map Gravacao.viaJSON vs))])
                       "bancaInicial" = Some b') by reflexivity.
  assert (Hconv : convertivel b' = true).
  { subst b'. destruct (isFinite (bancaInicial st)); reflexivity. }
  destruct (carregarLocal_lido txt _ b' w Htxt Hparse Hb Hconv)
    as (o & Ho & Hbanca & Hops).
  cbn in Ho. injection Ho as <-.
  rewrite (mapE_serialOps iso (operacoes st) vs (comBanca b' w) Hvs Hl) in Hops.
  cbn [fst] in Hops.
  assert (Hnum : Number b' = Gravacao.guardado (bancaInicial st)).
  { subst b'. unfold Gravacao.guardado.
    destruct (isFinite (bancaInicial st)); reflexivity. }
  rewrite Hnum in Hbanca.
  assert (H1 : bancaInicial (state (snd (carregarLocal (Some txt) w)))
               =~ Gravacao.guardado (bancaInicial st)).
  { rewrite Hbanca. apply ou_zero_guardado. }
  split; [exact H1|]. split; [exact Hops|].
  intros Hfin Hall. split.
  - rewrite (guardado_finito _ Hfin) in H1. exact H1.
  - rewrite Hops. clear -Hall.
    induction Hall as [|o l Ho _ IH]; [reflexivity|].
    cbn [map]. rewrite IH. f_equal.
    unfold Gravacao.opGuardada. rewrite (guardado_finito _ Ho).
    destruct o; reflexivity.
Qed.

Lemma salvar_carregar_roundtrip_witness :
  state (snd (carregarLocal (host := Exemplo2.navegador) (Some "sequencia") world0))
  = state Exemplo.mundoSequencia.
Proof.
  assert (Htxt : "sequencia" <> "") by discriminate.
  assert (Hl : Forall (Gravacao.opLimpa (host := Exemplo2.navegador) Exemplo2.iso)
                      (operacoes (state Exemplo.mundoSequencia))).
  { simpl.
    repeat (apply Forall_cons;
            [split; [exists Exemplo.t0; repeat split; discriminate
                    | split; [simpl; auto | apply Forall_nil]]|]).
    apply Forall_nil. }
  destruct (salvar_carregar_roundtrip (host := Exemplo2.navegador) Exemplo2.iso
              (state Exemplo.mundoSequencia) Exemplo2.objetoSequencia
              "sequencia" world0 eq_refl Htxt eq_refl Hl) as (_ & _ & Hfin).
  destruct Hfin as (_ & Hops); [reflexivity | |].
  - simpl. repeat (apply Forall_cons; [reflexivity|]). apply Forall_nil.
  - reflexivity.
Defined.

(** ** A valid submit in the main script *)

Section SubmitPrincipal.
Context {host : Host}.

Lemma salvarLocal_run w :
  salvarLocal w
  = (if forallb (fun o => match createdAt o with Some _ => true | None => false end)
                (operacoes (state w))
     then Done tt else Thrown, w).
Proof.
  unfold salvarLocal. run_m. destruct (forallb _ _); reflexivity.
Qed.

Lemma adicionarOperacao_result a w :
  fst (adicionarOperacao a w)
  = if forallb (fun o => match createdAt o with Some _ => true | None => false end)
               (operacoes (state w))
    then Done tt else Thrown.
Proof.
  unfold adicionarOperacao. run_m. cbn -[render salvarLocal forallb].
  rewrite salvarLocal_run. cbn [state operacoes].
  rewrite forallb_app. cbn [forallb createdAt]. rewrite !andb_true_r.
  destruct (forallb _ (operacoes (state w))); [|reflexivity].
  unfold render, bind. destruct (calcularKPIs _). reflexivity.
Qed.

(** What the form hands to [adicionarOperacao]. *)
Lemma onSubmit_aceito f msg w :
  (StringToNumber (Principal.inAmount f) >? Fin 0)%js = true ->
  Principal.inResult f = "WIN" \/ Principal.inResult f = "LOSS" ->
  exists a,
    nAmount a = VNum (StringToNumber (Principal.inAmount f))
    /\ nResult a = VStr (Principal.inResult f)
    /\ Principal.onSubmit f msg w
       = (match fst (adicionarOperacao a w) with
          | Done _ => Done {| Principal.formMsg := setMsg msg ""; fechado := true |}
          | Thrown => Thrown
          end, snd (adicionarOperacao a w)).
Proof.
  intros Ha Hr. unfold Principal.onSubmit.
  rewrite rejeita_iff_nao_positivo, Ha. cbn [negb].
  assert (Hres : negb (String.eqb (Principal.inResult f) "WIN")
                 && negb (String.eqb (Principal.inResult f) "LOSS") = false).
  { destruct Hr as [-> | ->]; reflexivity. }
  rewrite Hres.
  exists {| nAmount := VNum (StringToNumber (Principal.inAmount f));
            nResult := VStr (Principal.inResult f);
            nStrategy := VStr (trim (Principal.inStrategy f));
            nDescription := VStr (trim (Principal.inDescription f)) |}.
  split; [reflexivity|]. split; [reflexivity|].
  unfold bindE, bind.
  match goal with |- context [adicionarOperacao ?a w] =>
    destruct (adicionarOperacao a w) as [[[]|] w1] end; reflexivity.
Qed.

End SubmitPrincipal.

(** X9.  A form whose amount converts to a number greater than zero and
    whose result is WIN or LOSS is accepted by the submit handler of the
    main script: exactly one operation is appended, with that amount, that
    result and the current clock reading as its date.  The handler then
    clears the message and closes the form, unless some operation already
    in the log has an invalid date: in that case saving throws after the
    append, so the operation is in the log but the handler does not
    return normally. *)
Theorem onSubmit_accepts {host : Host}
  (f : Principal.Formulario) (msg : option string) (w : World) :
  (StringToNumber (Principal.inAmount f) >? Fin 0)%js = true ->
  Principal.inResult f = "WIN" \/ Principal.inResult f = "LOSS" ->
  let r := Principal.onSubmit f msg w in
  (exists op,
      operacoes (state (snd r)) = operacoes (state w) ++ [op]
      /\ amount op = StringToNumber (Principal.inAmount f)
      /\ result op = Principal.inResult f
      /\ createdAt op = Some (clock (leituras w)))
  /\ bancaInicial (state (snd r)) = bancaInicial (state w)
  /\ (Forall (fun o => createdAt o <> None) (operacoes (state w)) ->
      fst r = Done {| Principal.formMsg := setMsg msg ""; fechado := true |})
  /\ ((exists o, In o (operacoes (state w)) /\ createdAt o = None) ->
      fst r = Thrown).
Proof.
  intros Ha Hr r. subst r.
  destruct (onSubmit_aceito f msg w Ha Hr) as (a & Hamt & Hresult & ->).
  cbn [fst snd].
  rewrite adicionarOperacao_state, adicionarOperacao_result.
  cbn [operacoes bancaInicial].
  split.
  { exists (novaOperacao a w). repeat split.
    - unfold novaOperacao. cbn. rewrite Hamt. reflexivity.
    - unfold novaOperacao, normalizar. cbn. rewrite Hresult.
      destruct Hr as [-> | ->]; reflexivity. }
  split; [reflexivity|]. split.
  - intros Hall.
    replace (forallb _ (operacoes (state w))) with true; [reflexivity|].
    symmetry. apply forallb_forall. rewrite Forall_forall in Hall.
    intros o Hin. specialize (Hall o Hin). destruct (createdAt o); congruence.
  - intros (o & Hin & Hnone).
    destruct (forallb _ (operacoes (state w))) eqn:E; [|reflexivity].
    rewrite forallb_forall in E. specialize (E o Hin). rewrite Hnone in E.
    discriminate E.
Qed.

Lemma onSubmit_accepts_witness :
  let r := Principal.onSubmit (host := Exemplo.navegador) Exemplo2.formGanho25
                              (Some "antes") Exemplo.mundoSequencia in
  fst r = Done {| Principal.formMsg := Some ""; fechado := true |}
  /\ length (operacoes (state (snd r))) = 5
  /\ fst (Principal.onSubmit (host := Exemplo.navegador) Exemplo2.formGanho25
                             (Some "antes") Exemplo2.mundoDataInvalida) = Thrown.
Proof.
  intros r.
  assert (Hr : Principal.inResult Exemplo2.formGanho25 = "WIN"
               \/ Principal.inResult Exemplo2.formGanho25 = "LOSS")
    by (left; reflexivity).
  destruct (onSubmit_accepts (host := Exemplo.navegador) Exemplo2.formGanho25
              (Some "antes") Exemplo.mundoSequencia eq_refl Hr)
    as ((op & Hops & _) & _ & Hok & _).
  destruct (onSubmit_accepts (host := Exemplo.navegador) Exemplo2.formGanho25
              (Some "antes") Exemplo2.mundoDataInvalida eq_refl Hr)
    as (_ & _ & _ & Hthrow).
  split.
  - apply Hok. simpl. repeat (apply Forall_cons; [discriminate|]). apply Forall_nil.
  - split.
    + subst r. rewrite Hops, length_app. reflexivity.
    + apply Hthrow. eexists. split; [left; reflexivity | reflexivity].
Defined.

(** ** The submit handler of script/sozinho.js *)

Section SubmitSozinho.
Context {host : Host}.

Lemma payout_fora_iff p :
  isNaN p || (p <? Fin 0)%js || (p >? Fin 100)%js
  = negb ((Fin 0 <=? p)%js && (p <=? Fin 100)%js).
Proof.
  destruct p as [| |q|]; unfold gtb; cbn; try reflexivity.
  destruct (Qle_bool 0 q), (Qle_bool q 100); reflexivity.
Qed.

Lemma div_100 q : (Fin q / Fin 100)%js = Fin (q / 100)%Q.
Proof. reflexivity. Qed.

End SubmitSozinho.

(** X10.  The submit handler of script/sozinho.js stores a new balance
    exactly when the amount is greater than zero, the payout lies within 0
    and 100, the result is WIN or LOSS and an operational is selected.
    Then it clears the message; otherwise it shows a non-empty message and
    the balance is the one it was called with. *)
Theorem sozinho_accepts_iff {host : Host}
  (f : Sozinho.Formulario) (banca : number) (msg : option string) :
  let r := Sozinho.onSubmit f banca msg in
  Sozinho.salvo r = Validacao.aceito f
  /\ (Validacao.aceito f = true -> Sozinho.formMsg r = setMsg msg "")
  /\ (Validacao.aceito f = false ->
      Sozinho.bancaAtual r = banca
      /\ exists texto, texto <> "" /\ Sozinho.formMsg r = setMsg msg texto).
Proof.
  intros r. subst r. unfold Sozinho.onSubmit, Validacao.aceito.
  rewrite rejeita_iff_nao_positivo, payout_fora_iff.
  destruct (StringToNumber (Sozinho.inAmount f) >? Fin 0)%js; cbn [negb andb];
    [|rewrite setMsg_setMsg; cbn; repeat split; try discriminate;
      eexists; split; [|reflexivity]; discriminate].
  destruct ((Fin 0 <=? StringToNumber (Sozinho.inPayout f))%js
            && (StringToNumber (Sozinho.inPayout f) <=? Fin 100)%js);
    cbn [negb andb];
    [|rewrite setMsg_setMsg; cbn; repeat split; try discriminate;
      eexists; split; [|reflexivity]; discriminate].
  destruct (String.eqb (Sozinho.inResult f) "WIN") eqn:Hw;
    destruct (String.eqb (Sozinho.inResult f) "LOSS") eqn:Hl;
    cbn [negb andb orb];
    try (destruct (String.eqb (Sozinho.inOperacional f) ""); cbn;
         rewrite ?setMsg_setMsg; repeat split; try discriminate;
         eexists; split; [|reflexivity]; discriminate).
  rewrite setMsg_setMsg; cbn; repeat split; try discriminate.
  eexists; split; [|reflexivity]; discriminate.
Qed.

Lemma sozinho_accepts_iff_witness :
  Sozinho.salvo (Sozinho.onSubmit (host := Exemplo.navegador) Exemplo.formPayout
                                  (Fin 5000) (Some "antes")) = true
  /\ Sozinho.formMsg (Sozinho.onSubmit (host := Exemplo.navegador) Exemplo.formPayout
                                       (Fin 5000) (Some "antes")) = Some ""
  /\ Sozinho.bancaAtual (Sozinho.onSubmit (host := Exemplo.navegador)
                                          Exemplo.formPayout150
                                          (Fin 5000) (Some "antes")) = Fin 5000.
Proof.
  destruct (sozinho_accepts_iff (host := Exemplo.navegador) Exemplo.formPayout
              (Fin 5000) (Some "antes")) as (Hs & Hm & _).
  destruct (sozinho_accepts_iff (host := Exemplo.navegador) Exemplo.formPayout150
              (Fin 5000) (Some "antes")) as (_ & _ & Hrej).
  split; [rewrite Hs; reflexivity|].
  split; [apply Hm; reflexivity|].
  apply Hrej. reflexivity.
Defined.

(** X11.  In script/sozinho.js an accepted win on a finite balance with a
    finite stake never lowers the balance and never takes it above what
    adding the whole stake to the balance gives; an accepted loss gives
    the balance plus the negated stake, whatever the payout.  The sums are
    the script's own additions, so the bounds do not depend on rounding:
    the payout ratio is at most 1 and rounding keeps the order. *)
Theorem sozinho_delta_bounds {host : Host}
  (f : Sozinho.Formulario) (b a : Q) (msg : option string) :
  Validacao.aceito f = true ->
  StringToNumber (Sozinho.inAmount f) = Fin a ->
  let novo := Sozinho.bancaAtual (Sozinho.onSubmit f (Fin b) msg) in
  (Sozinho.inResult f = "WIN" ->
   (Fin b <=? novo)%js = true /\ (novo <=? Fin b + Fin a)%js = true)
  /\ (Sozinho.inResult f = "LOSS" -> novo = (Fin b + - Fin a)%js).
Proof.
  intros Hac Ha novo. subst novo.
  pose proof Hac as Hac'. unfold Validacao.aceito in Hac'.
  rewrite Ha in Hac'.
  apply andb_prop in Hac'. destruct Hac' as [Hac' Hop].
  apply andb_prop in Hac'. destruct Hac' as [Hac' Hres].
  apply andb_prop in Hac'. destruct Hac' as [Hpos Hp].
  apply andb_prop in Hp. destruct Hp as [Hlo Hhi].
  apply negb_true_iff, String.eqb_neq in Hop.
  assert (Hr : Sozinho.inResult f = "WIN" \/ Sozinho.inResult f = "LOSS").
  { apply orb_prop in Hres. destruct Hres as [H | H]; apply String.eqb_eq in H; auto. }
  rewrite sozinho_aceita; auto;
    try (rewrite Ha; exact Hpos);
    try (eapply leb_not_NaN_r; exact Hlo);
    try (apply leb_not_ltb; assumption).
  cbn [Sozinho.bancaAtual]. rewrite Ha.
  destruct (StringToNumber (Sozinho.inPayout f)) as [| |q|] eqn:Hq;
    cbn in Hlo, Hhi; try discriminate.
  unfold gtb in Hpos. cbn in Hpos.
  apply negb_true_iff in Hpos.
  assert (Hapos : (0 < a)%Q).
  { destruct (Qlt_le_dec 0 a) as [H | H]; [exact H|].
    apply Qle_bool_iff in H. congruence. }
  apply Qle_bool_iff in Hlo, Hhi.
  split.
  - intros Hw. rewrite Hw. cbn [String.eqb Ascii.eqb Bool.eqb].
    rewrite div_100. cbn [mul add leb].
    assert (H0 : (0 <= a * (q / 100))%Q).
    { apply Qmult_le_0_compat; [apply Qlt_le_weak, Hapos|].
      apply Qle_shift_div_l; [reflexivity | lra]. }
    assert (H1 : (a * (q / 100) <= a)%Q).
    { rewrite <- (Qmult_1_r a) at 2.
      apply Qmult_le_l; [exact Hapos|].
      apply Qle_shift_div_r; [reflexivity | lra]. }
    split; apply Qle_bool_iff; lra.
  - intros Hl. rewrite Hl. reflexivity.
Qed.

Lemma sozinho_delta_bounds_witness :
  let novo := Sozinho.bancaAtual
                (Sozinho.onSubmit (host := Exemplo.navegador) Exemplo.formPayout
                                  (Fin 5000) None) in
  (Fin 5000 <=? novo)%js = true /\ (novo <=? Fin 5000 + Fin 100)%js = true.
Proof.
  apply (proj1 (sozinho_delta_bounds (host := Exemplo.navegador) Exemplo.formPayout
                  5000 100 None eq_refl eq_refl)).
  reflexivity.
Defined.

(** X12.  The balance of script/sozinho.js starts as a finite number
    whatever the storage holds, but the submit handler does not keep it
    finite: its checks let the amount Infinity through.  With that amount
    an accepted loss makes the balance -Infinity, an accepted win at
    payout 0 makes it NaN, and in no case is the new balance finite; a
    text that converts to such a balance makes the next page start at 100. *)
Theorem sozinho_infinite_amount {host : Host} :
  (forall raw : option string, isFinite (Sozinho.bancaAtualInicial raw) = true)
  /\ (forall (f : Sozinho.Formulario) (b : Q) (msg : option string),
         Validacao.aceito f = true ->
         StringToNumber (Sozinho.inAmount f) = PosInf ->
         let novo := Sozinho.bancaAtual (Sozinho.onSubmit f (Fin b) msg) in
         Sozinho.salvo (Sozinho.onSubmit f (Fin b) msg) = true
         /\ isFinite novo = false
         /\ (Sozinho.inResult f = "LOSS" -> novo = NegInf)
         /\ (Sozinho.inResult f = "WIN" ->
             StringToNumber (Sozinho.inPayout f) =~ Fin 0 -> novo = NaN)
         /\ (forall txt, StringToNumber txt = novo ->
                         Sozinho.bancaAtualInicial (Some txt) = Fin 100)).
Proof.
  split.
  - intros raw. unfold Sozinho.bancaAtualInicial.
    destruct raw as [s|]; [|reflexivity].
    destruct (isFinite (StringToNumber s)) eqn:H; [exact H | reflexivity].
  - intros f b msg Hac Ha novo. subst novo.
    pose proof Hac as Hac'. unfold Validacao.aceito in Hac'.
    apply andb_prop in Hac'. destruct Hac' as [Hac' Hop].
    apply andb_prop in Hac'. destruct Hac' as [Hac' Hres].
    apply andb_prop in Hac'. destruct Hac' as [Hpos Hp].
    apply andb_prop in Hp. destruct Hp as [Hlo Hhi].
    apply negb_true_iff, String.eqb_neq in Hop.
    assert (Hr : Sozinho.inResult f = "WIN" \/ Sozinho.inResult f = "LOSS").
    { apply orb_prop in Hres. destruct Hres as [H | H];
        apply String.eqb_eq in H; auto. }
    rewrite sozinho_aceita; auto;
      try (eapply leb_not_NaN_r; exact Hlo);
      try (apply leb_not_ltb; assumption).
    cbn [Sozinho.bancaAtual Sozinho.salvo]. rewrite Ha.
    destruct (StringToNumber (Sozinho.inPayout f)) as [| |q|] eqn:Hq;
      cbn in Hlo, Hhi; try discriminate.
    rewrite div_100.
    assert (Hnf : isFinite
                    (Fin b + (if String.eqb (Sozinho.inResult f) "WIN"
                              then PosInf * Fin (q / 100) else - PosInf))%js
                  = false).
    { destruct (String.eqb (Sozinho.inResult f) "WIN"); cbn; [|reflexivity].
      unfold sgn. destruct (Qcompare (q / 100) 0); reflexivity. }
    split; [reflexivity|]. split; [exact Hnf|]. split; [|split].
    + intros ->. reflexivity.
    + intros -> Hz. cbn [String.eqb Ascii.eqb Bool.eqb]. cbn in Hz.
      cbn [mul]. unfold sgn.
      assert (Hc : Qcompare (q / 100) 0 = Eq).
      { apply Qeq_alt. rewrite Hz. reflexivity. }
      rewrite Hc. reflexivity.
    + intros txt Htxt. unfold Sozinho.bancaAtualInicial.
      rewrite Htxt, Hnf. reflexivity.
Qed.

Lemma sozinho_infinite_amount_witness :
  isFinite (Sozinho.bancaAtualInicial (host := Exemplo.navegador) (Some "abc")) = true
  /\ Sozinho.bancaAtual
       (Sozinho.onSubmit (host := Exemplo2.navegadorInfinito)
                         Exemplo2.formPerdaInfinita (Fin 5000) None) = NegInf.
Proof.
  destruct (sozinho_infinite_amount (host := Exemplo.navegador)) as (Hini & _).
  destruct (sozinho_infinite_amount (host := Exemplo2.navegadorInfinito))
    as (_ & Hinf).
  split; [apply Hini|].
  destruct (Hinf Exemplo2.formPerdaInfinita 5000%Q None eq_refl eq_refl)
    as (_ & _ & Hloss & _).
  apply Hloss. reflexivity.
Defined.

(** ** Sizes *)

Section Tamanhos.
Context {host : Host}.

Lemma filterM_length {A} (p : A -> M bool) l : forall w,
  length (fst (filterM p l w)) <= length l.
Proof.
  induction l as [|x l IH]; intros w; [simpl; lia|].
  rewrite filterM_cons. destruct (p x w) as [keep w1].
  specialize (IH w1). destruct (filterM p l w1) as [tl w2]. cbn [fst] in *.
  destruct keep; simpl; lia.
Qed.

Lemma wins_losses_le (l : list Operacao) :
  length (filter (fun o => String.eqb (result o) "WIN") l)
  + length (filter (fun o => String.eqb (result o) "LOSS") l)
  <= length l.
Proof.
  induction l as [|o l IH]; [simpl; lia|]. cbn [filter].
  destruct (String.eqb_spec (result o) "WIN") as [Hw | _].
  - rewrite Hw. cbn. lia.
  - destruct (String.eqb (result o) "LOSS"); cbn; lia.
Qed.

Lemma runLength_le t l : runLength t l <= length l.
Proof.
  induction l as [|o l IH]; [simpl; lia|]. cbn [runLength].
  destruct (String.eqb (result o) t); simpl; lia.
Qed.

Lemma runLength_le_wins l :
  runLength "WIN" l <= length (filter (fun o => String.eqb (result o) "WIN") l).
Proof.
  induction l as [|o l IH]; [simpl; lia|]. cbn [runLength filter].
  destruct (String.eqb (result o) "WIN"); simpl; lia.
Qed.

Lemma longestWinRun_le_wins l :
  longestWinRun l <= length (filter (fun o => String.eqb (result o) "WIN") l).
Proof.
  induction l as [|o l IH]; [simpl; lia|].
  cbn [longestWinRun]. pose proof (runLength_le_wins (o :: l)) as H.
  cbn [filter] in *. destruct (String.eqb (result o) "WIN"); simpl in *; lia.
Qed.

Lemma longestWinRun_zero l :
  longestWinRun l = 0 <-> Forall (fun o => result o <> "WIN") l.
Proof.
  induction l as [|o l IH]; [split; [constructor | reflexivity]|].
  cbn [longestWinRun runLength].
  destruct (String.eqb_spec (result o) "WIN") as [Hw | Hw].
  - split; [intros H; lia|]. intros H. inversion H; subst. contradiction.
  - split.
    + intros H. constructor; [exact Hw|]. apply IH. lia.
    + intros H. inversion H; subst. apply IH in H3. lia.
Qed.

Lemma filter_length_le {A} (p : A -> bool) l : length (filter p l) <= length l.
Proof. induction l as [|x l IH]; simpl; [lia|]. destruct (p x); simpl; lia. Qed.

End Tamanhos.

(** X13.  In every snapshot the wins and the losses of the month together
    are at most the operations of the month, which are at most the log;
    the current streak is at most the length of the log; the longest WIN
    streak is at most the number of WIN results in the log, and it is 0
    exactly when the log has no WIN. *)
Theorem calcularKPIs_sizes {host : Host} (w : World) :
  let k := fst (calcularKPIs w) in
  let ops := operacoes (state w) in
  winsMes k + lossesMes k <= length (fst (opsDoMes w))
  /\ length (fst (opsDoMes w)) <= length ops
  /\ streakAtual k <= length ops
  /\ streakMax k <= length (filter (fun o => String.eqb (result o) "WIN") ops)
  /\ streakMax k <= length ops
  /\ (streakMax k = 0 <-> Forall (fun o => result o <> "WIN") ops).
Proof.
  intros k ops. subst k ops. rewrite calcularKPIs_run. cbn [fst].
  unfold montarKPIs. cbn [winsMes lossesMes streakAtual streakMax].
  assert (Hmax : fst (fold_left passoStreakMax (operacoes (state w)) (0, 0))
                 = longestWinRun (operacoes (state w))).
  { rewrite passoStreakMax_longest by lia. simpl.
    pose proof (runLength_le_longest (operacoes (state w))). lia. }
  rewrite Hmax.
  pose proof (longestWinRun_le_wins (operacoes (state w))) as Hw.
  pose proof (filter_length_le (fun o => String.eqb (result o) "WIN")
                               (operacoes (state w))) as Hf.
  split; [apply wins_losses_le|].
  split; [rewrite opsDoMes_run; apply filterM_length|].
  split.
  - destruct (operacoes (state w)) as [|o l] using rev_ind; [simpl; lia|].
    rewrite streakLoop_snoc, length_app.
    pose proof (runLength_le (result o) (rev l)) as Hr.
    rewrite length_rev in Hr.
    destruct (String.eqb (result o) ""); simpl; lia.
  - split; [exact Hw|]. split; [lia|]. apply longestWinRun_zero.
Qed.

(** ** The average stake of the month *)

Section Media.
Context {host : Host}.

Lemma add_nao_negativo x y :
  (Fin 0 <=? x)%js = true -> (Fin 0 <=? y)%js = true ->
  (Fin 0 <=? x + y)%js = true.
Proof.
  destruct x as [| |p|], y as [| |q|]; cbn; try discriminate; auto.
  intros Hp Hq. apply Qle_bool_iff in Hp, Hq. apply Qle_bool_iff. lra.
Qed.

Lemma soma_amounts_nao_negativa l : forall acc,
  (Fin 0 <=? acc)%js = true ->
  Forall (fun o => (Fin 0 <=? amount o)%js = true) l ->
  (Fin 0 <=? fold_left (fun acc o => acc + amount o)%js l acc)%js = true.
Proof.
  induction l as [|o l IH]; intros acc Hacc Hall; [exact Hacc|].
  inversion Hall as [|? ? Ho Hl]; subst. cbn [fold_left].
  apply IH; [apply add_nao_negativo; assumption | exact Hl].
Qed.

Lemma div_nao_negativo x (n : nat) :
  0 < n -> (Fin 0 <=? x)%js = true -> (Fin 0 <=? x / of_nat n)%js = true.
Proof.
  intros Hn Hx.
  assert (Hq : (0 < inject_Z (Z.of_nat n))%Q).
  { change 0%Q with (inject_Z 0). rewrite <- Zlt_Qlt. lia. }
  apply Qgt_alt in Hq as Hc.
  destruct x as [| |p|]; cbn in Hx; try discriminate;
    unfold of_nat, of_Z, div, sgn; rewrite Hc; [|reflexivity].
  cbn [leb]. apply Qle_bool_iff in Hx. apply Qle_bool_iff.
  apply Qle_shift_div_l; [exact Hq | lra].
Qed.

End Media.

(** X14.  When no stake of the month is negative or NaN, the average
    stake of the month is not negative and not NaN either; with no
    operation in the month it is 0. *)
Theorem mediaMes_not_negative {host : Host} (w : World) :
  Forall (fun o => (Fin 0 <=? amount o)%js = true) (fst (opsDoMes w)) ->
  (Fin 0 <=? mediaMes (fst (calcularKPIs w)))%js = true
  /\ (fst (opsDoMes w) = [] -> mediaMes (fst (calcularKPIs w)) = Fin 0).
Proof.
  intros Hall. rewrite calcularKPIs_run. cbn [fst].
  unfold montarKPIs. cbn [mediaMes].
  set (mes := fst (opsDoMes w)) in *.
  split.
  - destruct (Nat.ltb_spec 0 (length mes)) as [Hpos | _]; [|reflexivity].
    apply div_nao_negativo; [exact Hpos|].
    apply soma_amounts_nao_negativa; [reflexivity | exact Hall].
  - intros ->. reflexivity.
Qed.

Lemma mediaMes_not_negative_witness :
  (Fin 0 <=? mediaMes (fst (calcularKPIs (host := Exemplo.navegador)
                                         Exemplo.mundoSequencia)))%js = true.
Proof.
  apply (mediaMes_not_negative (host := Exemplo.navegador) Exemplo.mundoSequencia).
  vm_compute. repeat (apply Forall_cons; [reflexivity|]). apply Forall_nil.
Defined.

(** ** A clock that stands still during the call *)

Section RelogioParado.
Context {host : Host}.

Lemma filterM_noMes_parado sm now l : forall w,
  (forall n, leituras w <= n < leituras w + length l -> clock n = now) ->
  fst (filterM (noMes sm) l w)
  = filter (fun o => date_geb (createdAt o) sm
                     && date_leb (createdAt o) (Some now)) l.
Proof.
  induction l as [|x l IH]; intros w Hc; [reflexivity|].
  rewrite filterM_cons. cbn [filter].
  pose proof (noMes_frame sm x w) as (_ & _ & Hl).
  assert (Hk : fst (noMes sm x w)
               = date_geb (createdAt x) sm && date_leb (createdAt x) (Some now)).
  { unfold noMes. destruct (date_geb (createdAt x) sm); [|reflexivity].
    cbn. rewrite (Hc (leituras w)); [reflexivity | simpl; lia]. }
  destruct (noMes sm x w) as [keep w1]. cbn [fst snd] in *. subst keep.
  rewrite <- (IH w1).
  - destruct (filterM (noMes sm) l w1) as [tl w2]. reflexivity.
  - intros n Hn. apply Hc. simpl. lia.
Qed.

End RelogioParado.

(** X15.  When every clock reading made during a call is the same instant
    [now], the operations of the month are exactly those dated from the
    start of the month of [now] up to [now], and the whole snapshot is the
    arithmetic of [calcularKPIs] on the state, that start and those
    operations. *)
Theorem calcularKPIs_clock_still {host : Host} (w : World) (now : Z) :
  (forall n, leituras w <= n <= leituras w + length (operacoes (state w)) ->
             clock n = now) ->
  let inicio := Some (startOfMonth now) in
  let mes := filter (fun o => date_geb (createdAt o) inicio
                              && date_leb (createdAt o) (Some now))
                    (operacoes (state w)) in
  fst (opsDoMes w) = mes
  /\ fst (calcularKPIs w) = montarKPIs (state w) inicio mes.
Proof.
  intros Hc inicio mes. subst inicio mes.
  assert (Hmes : fst (opsDoMes w)
                 = filter (fun o => date_geb (createdAt o) (Some (startOfMonth now))
                                    && date_leb (createdAt o) (Some now))
                          (operacoes (state w))).
  { rewrite opsDoMes_run, (Hc (leituras w)) by lia.
    apply filterM_noMes_parado. intros n Hn. apply Hc.
    cbn [leituras tique] in Hn. lia. }
  split; [exact Hmes|].
  rewrite calcularKPIs_run. cbn [fst]. rewrite Hmes, (Hc (leituras w)) by lia.
  reflexivity.
Qed.

Lemma calcularKPIs_clock_still_witness :
  fst (opsDoMes (host := Exemplo.navegador) Exemplo.mundoAdiante) = []
  /\ winsMes (fst (calcularKPIs (host := Exemplo.navegador) Exemplo.mundoAdiante)) = 0.
Proof.
  destruct (calcularKPIs_clock_still (host := Exemplo.navegador)
              Exemplo.mundoAdiante Exemplo.t0 (fun n _ => eq_refl)) as (Hm & Hk).
  split; [rewrite Hm; reflexivity | rewrite Hk; reflexivity].
Defined.

(** ** A valid submit and the balance *)

(** X16.  After a form is accepted by the submit handler of the main
    script, the balance recomputed by [calcularKPIs] is the initial
    balance plus the newly accumulated profit, which is the profit
    accumulated before plus the amount typed on a WIN and plus its
    negation on a LOSS, added last; no payout enters. *)
Theorem onSubmit_moves_balance {host : Host}
  (f : Principal.Formulario) (msg : option string) (w : World) :
  (StringToNumber (Principal.inAmount f) >? Fin 0)%js = true ->
  Principal.inResult f = "WIN" \/ Principal.inResult f = "LOSS" ->
  let w' := snd (Principal.onSubmit f msg w) in
  let acumulado := soma (map lucro (operacoes (state w))) in
  Principal.bancaAtual (fst (calcularKPIs w))
  = (bancaInicial (state w) + acumulado)%js
  /\ Principal.bancaAtual (fst (calcularKPIs w'))
     = (bancaInicial (state w)
        + (acumulado
           + (if String.eqb (Principal.inResult f) "WIN"
              then StringToNumber (Principal.inAmount f)
              else - StringToNumber (Principal.inAmount f))))%js.
Proof.
  intros Ha Hr w' acumulado. subst w' acumulado.
  destruct (onSubmit_aceito f msg w Ha Hr) as (a & Hamt & Hresult & ->).
  cbn [snd]. rewrite !bancaAtual_calc, adicionarOperacao_state.
  cbn [operacoes bancaInicial]. split; [reflexivity|].
  rewrite map_app. cbn [map].
  rewrite soma_snoc, lucro_novaOperacao, Hamt, Hresult. cbn [strictEqStr Number].
  reflexivity.
Qed.

Lemma onSubmit_moves_balance_witness :
  Principal.bancaAtual
    (fst (calcularKPIs (host := Exemplo.navegador)
            (snd (Principal.onSubmit (host := Exemplo.navegador)
                    Exemplo2.formGanho25 None Exemplo.mundoPayout))))
  = Fin 5125.
Proof.
  rewrite (proj2 (onSubmit_moves_balance (host := Exemplo.navegador)
                    Exemplo2.formGanho25 None Exemplo.mundoPayout eq_refl
                    (or_introl eq_refl))).
  reflexivity.
Defined.
